(** * Sentinel: the five-stage competitive-intelligence pipeline

    A shallow embedding of [src/services/geminiService.ts]: the cost
    estimator [calculateCost] and the five stage functions
    [runRouterAgent], [runHunterAgent], [runScraperAgent],
    [runAnalystAgent] and [runReporterAgent].

    Modelling conventions.
    - A JavaScript string is the list of its UTF-16 code units, so
      [length] and [slice] count what [String.prototype.length] counts.
    - A JavaScript number is an exact rational ([Q]); rounding, [NaN] and
      the infinities of IEEE doubles are outside the model.
    - A value obtained from [JSON.parse] is a [JSValue].
    - [await]ed calls, [try]/[catch], [console] output, the clock and the
      model gateway are threaded through the monad [M] below.
    - [../constants] ([MODELS], [PRICING], [PROMPTS]) is not part of the
      source under study; it enters as the [config] of the host [Env]. *)

From Stdlib Require Import List String Ascii Bool NArith ZArith QArith Lia.
Import ListNotations.

Close Scope Q_scope.
Open Scope N_scope.

(* ================================================================== *)
(** * Strings as sequences of UTF-16 code units *)
(* ================================================================== *)

Definition code_unit := N.
Definition jsstring := list code_unit.

(** An ASCII literal of the source, as code units. *)
Definition js (s : string) : jsstring :=
  map N_of_ascii (list_ascii_of_string s).

(** The same, with every apostrophe standing for a double quote
    (code unit 34); used to write JSON texts. *)
Definition json_text (s : string) : jsstring :=
  map (fun c => if c =? 39 then 34 else c) (js s).

(** The line feed of the source's [\n]. *)
Definition LF : jsstring := [10].

Definition jsstring_eqb (a b : jsstring) : bool :=
  if list_eq_dec N.eq_dec a b then true else false.

(** [s.slice(0, n)] for [0 <= n]. *)
Definition slice0 (n : nat) (s : jsstring) : jsstring := firstn n s.
Arguments slice0 : simpl never.

(** [xs.join(sep)] for an array of strings. *)
Fixpoint join (sep : jsstring) (xs : list jsstring) : jsstring :=
  match xs with
  | [] => []
  | [x] => x
  | x :: rest => x ++ sep ++ join sep rest
  end.

(** [s || d] on an optional string: absent and empty are both falsy. *)
Definition str_or (s : option jsstring) (d : jsstring) : jsstring :=
  match s with
  | Some (c :: r) => c :: r
  | _ => d
  end.

Definition str_truthy (s : option jsstring) : bool :=
  match s with
  | Some (_ :: _) => true
  | _ => false
  end.

(** Decimal digits of a natural number ([String(n)] for an array length
    or an array index). *)
Fixpoint decimal_digits (fuel : nat) (n : N) (acc : jsstring) : jsstring :=
  match fuel with
  | O => acc
  | S fuel' =>
      let acc' := (48 + n mod 10) :: acc in
      if n <? 10 then acc' else decimal_digits fuel' (n / 10) acc'
  end.

Definition N_toString (n : N) : jsstring :=
  decimal_digits (S (N.size_nat n)) n [].

Definition Nat_toString (n : nat) : jsstring := N_toString (N.of_nat n).

(* ================================================================== *)
(** * Thrown values and completions *)
(* ================================================================== *)

(** An [Error] object: its [name] and [message]. *)
Record JSError := mkError { err_name : jsstring; err_message : jsstring }.

Definition TypeError (m : string) : JSError := mkError (js "TypeError") (js m).
Definition SyntaxError (m : string) : JSError := mkError (js "SyntaxError") (js m).
Definition URIError (m : string) : JSError := mkError (js "URIError") (js m).
Definition PlainError (m : string) : JSError := mkError (js "Error") (js m).

(** [Error.prototype.toString]. *)
Definition Error_toString (e : JSError) : jsstring :=
  match err_name e, err_message e with
  | n, [] => n
  | [], m => m
  | n, m => n ++ js ": " ++ m
  end.

(** The outcome of evaluating an expression: a value or a thrown error. *)
Inductive Completion (A : Type) : Type :=
| Normal (a : A)
| Throw (e : JSError).
Arguments Normal {A} a.
Arguments Throw {A} e.

Definition cbind {A B} (c : Completion A) (k : A -> Completion B) : Completion B :=
  match c with
  | Normal a => k a
  | Throw e => Throw e
  end.

(* ================================================================== *)
(** * Values produced by [JSON.parse] *)
(* ================================================================== *)

(** An array carries its elements and, separately, the named properties
    later assigned to it (an array is an object; the analyst may assign
    [scores] to one). *)
#[warnings="-register-all"]
Inductive JSValue : Type :=
| JUndefined
| JNull
| JBool (b : bool)
| JNumber (q : Q)
| JString (s : jsstring)
| JArray (elems : list JSValue) (named : list (jsstring * JSValue))
| JObject (props : list (jsstring * JSValue)).

Section Properties.
Context {V : Type}.

Fixpoint lookup (k : jsstring) (props : list (jsstring * V)) : option V :=
  match props with
  | [] => None
  | (k', v) :: rest => if jsstring_eqb k k' then Some v else lookup k rest
  end.

Definition has_key (k : jsstring) (props : list (jsstring * V)) : bool :=
  match lookup k props with Some _ => true | None => false end.

(** [CreateDataProperty] / assignment: an existing key keeps its place
    and takes the new value, a new key goes last. *)
Fixpoint define (k : jsstring) (v : V) (props : list (jsstring * V))
  : list (jsstring * V) :=
  match props with
  | [] => [(k, v)]
  | (k', v') :: rest =>
      if jsstring_eqb k k' then (k, v) :: rest
      else (k', v') :: define k v rest
  end.

Definition remove (k : jsstring) (props : list (jsstring * V))
  : list (jsstring * V) :=
  filter (fun kv => negb (jsstring_eqb k (fst kv))) props.

Definition values (props : list (jsstring * V)) : list V := map snd props.
End Properties.

(** [ToBoolean]. *)
Definition truthy (v : JSValue) : bool :=
  match v with
  | JUndefined | JNull => false
  | JBool b => b
  | JNumber q => negb (Qnum q =? 0)%Z
  | JString s => match s with [] => false | _ => true end
  | JArray _ _ | JObject _ => true
  end.

(* ================================================================== *)
(** * [JSON.parse] *)
(* ================================================================== *)

(** The grammar of ECMA-404, read in two passes: a one-pass scanner
    from code units to tokens, then a stack machine from tokens to a
    value.  Both recurse on their input list only. *)

Module Json.

Inductive Token :=
| TLBrace | TRBrace | TLBracket | TRBracket | TColon | TComma
| TString (s : jsstring)
| TNumber (q : Q)
| TTrue | TFalse | TNull.

Definition is_ws (c : code_unit) : bool :=
  (c =? 32) || (c =? 9) || (c =? 10) || (c =? 13).
Definition is_digit (c : code_unit) : bool := (48 <=? c) && (c <=? 57).
Definition is_lower (c : code_unit) : bool := (97 <=? c) && (c <=? 122).
(** The code units a number token is made of: digits, [-], [+], [.],
    [e], [E]. *)
Definition is_number_char (c : code_unit) : bool :=
  is_digit c || (c =? 45) || (c =? 43) || (c =? 46) || (c =? 101) || (c =? 69).

Definition hex_value (c : code_unit) : option N :=
  if is_digit c then Some (c - 48)
  else if (97 <=? c) && (c <=? 102) then Some (c - 87)
  else if (65 <=? c) && (c <=? 70) then Some (c - 55)
  else None.

(** ** Numbers *)

Fixpoint span_digits (s : jsstring) : list N * jsstring :=
  match s with
  | c :: r =>
      if is_digit c then let (ds, rest) := span_digits r in (c - 48 :: ds, rest)
      else ([], s)
  | [] => ([], [])
  end.

Definition digits_value (ds : list N) : Z :=
  fold_left (fun acc d => (acc * 10 + Z.of_N d)%Z) ds 0%Z.

(** [m * 10^e] as a reduced fraction. *)
Definition scale10 (m e : Z) : Q :=
  if (0 <=? e)%Z then inject_Z (m * 10 ^ e)
  else Qred (Qmake m (Z.to_pos (10 ^ (- e)))).

(** An optional minus sign; an integer part without a leading zero
    (unless it is the single digit 0); an optional fraction of at
    least one digit; an optional exponent of at least one digit. *)
Definition number_of (s : jsstring) : option Q :=
  let (neg, s1) := match s with 45 :: r => (true, r) | _ => (false, s) end in
  let (int, s2) := span_digits s1 in
  match int with
  | [] => None
  | 0 :: _ :: _ => None
  | _ =>
      let frac_rest :=
        match s2 with
        | 46 :: r =>
            let (fr, s3) := span_digits r in
            match fr with [] => None | _ => Some (fr, s3) end
        | _ => Some ([], s2)
        end in
      match frac_rest with
      | None => None
      | Some (fr, s3) =>
          let exp_rest :=
            match s3 with
            | [] => Some 0%Z
            | c :: r =>
                if (c =? 101) || (c =? 69) then
                  let (eneg, r1) :=
                    match r with
                    | 45 :: r' => (true, r')
                    | 43 :: r' => (false, r')
                    | _ => (false, r)
                    end in
                  let (ds, r2) := span_digits r1 in
                  match ds, r2 with
                  | _ :: _, [] =>
                      Some (if eneg then (- digits_value ds)%Z else digits_value ds)
                  | _, _ => None
                  end
                else None
            end in
          match exp_rest with
          | None => None
          | Some e =>
              let m := digits_value (int ++ fr) in
              Some (scale10 (if neg then (- m)%Z else m)
                            (e - Z.of_nat (List.length fr)))
          end
      end
  end.

Definition word_of (s : jsstring) : option Token :=
  if jsstring_eqb s (js "true") then Some TTrue
  else if jsstring_eqb s (js "false") then Some TFalse
  else if jsstring_eqb s (js "null") then Some TNull
  else None.

(** ** Scanner *)

(** Accumulators hold code units in reverse. *)
Inductive LexState :=
| LIdle
| LStr (acc : jsstring)
| LEsc (acc : jsstring)
| LHex (acc : jsstring) (seen : nat) (v : N)
| LNum (acc : jsstring)
| LWord (acc : jsstring).

Definition lex_idle (c : code_unit) : option (LexState * list Token) :=
  if is_ws c then Some (LIdle, [])
  else if c =? 123 then Some (LIdle, [TLBrace])
  else if c =? 125 then Some (LIdle, [TRBrace])
  else if c =? 91 then Some (LIdle, [TLBracket])
  else if c =? 93 then Some (LIdle, [TRBracket])
  else if c =? 58 then Some (LIdle, [TColon])
  else if c =? 44 then Some (LIdle, [TComma])
  else if c =? 34 then Some (LStr [], [])
  else if (c =? 45) || is_digit c then Some (LNum [c], [])
  else if is_lower c then Some (LWord [c], [])
  else None.

Definition lex_escape (acc : jsstring) (c : code_unit) : option LexState :=
  match c with
  | 34 => Some (LStr (34 :: acc))   (* quotation mark *)
  | 92 => Some (LStr (92 :: acc))   (* reverse solidus *)
  | 47 => Some (LStr (47 :: acc))   (* solidus *)
  | 98 => Some (LStr (8 :: acc))    (* b: backspace *)
  | 102 => Some (LStr (12 :: acc))  (* f: form feed *)
  | 110 => Some (LStr (10 :: acc))  (* n: line feed *)
  | 114 => Some (LStr (13 :: acc))  (* r: carriage return *)
  | 116 => Some (LStr (9 :: acc))   (* t: tab *)
  | 117 => Some (LHex acc 0 0)      (* u: four hex digits follow *)
  | _ => None
  end.

(** What a pending number or word contributes when it ends. *)
Definition lex_flush (st : LexState) : option (list Token) :=
  match st with
  | LIdle => Some []
  | LNum acc => option_map (fun q => [TNumber q]) (number_of (rev acc))
  | LWord acc => option_map (fun t => [t]) (word_of (rev acc))
  | _ => None
  end.

Definition lex_step (st : LexState) (c : code_unit)
  : option (LexState * list Token) :=
  match st with
  | LIdle => lex_idle c
  | LStr acc =>
      if c =? 34 then Some (LIdle, [TString (rev acc)])
      else if c =? 92 then Some (LEsc acc, [])
      else if c <? 32 then None
      else Some (LStr (c :: acc), [])
  | LEsc acc => option_map (fun st' => (st', [])) (lex_escape acc c)
  | LHex acc seen v =>
      match hex_value c with
      | Some d =>
          let v' := v * 16 + d in
          Some (match seen with
                | 3%nat => LStr (v' :: acc)
                | _ => LHex acc (S seen) v'
                end, [])
      | None => None
      end
  | LNum acc =>
      if is_number_char c then Some (LNum (c :: acc), [])
      else match lex_flush st, lex_idle c with
           | Some ts, Some (st', ts') => Some (st', ts ++ ts')
           | _, _ => None
           end
  | LWord acc =>
      if is_lower c then Some (LWord (c :: acc), [])
      else match lex_flush st, lex_idle c with
           | Some ts, Some (st', ts') => Some (st', ts ++ ts')
           | _, _ => None
           end
  end.

Fixpoint lex_from (st : LexState) (s : jsstring) : option (list Token) :=
  match s with
  | [] => lex_flush st
  | c :: r =>
      match lex_step st c with
      | Some (st', ts) => option_map (app ts) (lex_from st' r)
      | None => None
      end
  end.

Definition lex : jsstring -> option (list Token) := lex_from LIdle.

(** ** Stack machine *)

(** An open container: an array with the elements read so far (in
    reverse), an object waiting for a key, or an object holding a key
    whose value is being read. *)
Inductive Frame :=
| FArray (done : list JSValue)
| FObject (props : list (jsstring * JSValue))
| FMember (props : list (jsstring * JSValue)) (key : jsstring).

Inductive Mode :=
| PValue            (* a value must follow *)
| PValueOrClose     (* just after an opening bracket *)
| PKey              (* a member name must follow *)
| PKeyOrClose       (* just after an opening brace *)
| PColon
| PAfter            (* after a value inside a container *)
| PDone (v : JSValue).

(** A value has been read: hand it to the innermost open container. *)
Definition complete (v : JSValue) (stack : list Frame)
  : option (Mode * list Frame) :=
  match stack with
  | [] => Some (PDone v, [])
  | FArray done :: st => Some (PAfter, FArray (v :: done) :: st)
  | FMember props k :: st => Some (PAfter, FObject (define k v props) :: st)
  | FObject _ :: _ => None
  end.

Definition parse_value_token (t : Token) (stack : list Frame)
  : option (Mode * list Frame) :=
  match t with
  | TString s => complete (JString s) stack
  | TNumber q => complete (JNumber q) stack
  | TTrue => complete (JBool true) stack
  | TFalse => complete (JBool false) stack
  | TNull => complete JNull stack
  | TLBracket => Some (PValueOrClose, FArray [] :: stack)
  | TLBrace => Some (PKeyOrClose, FObject [] :: stack)
  | _ => None
  end.

Definition parse_step (m : Mode) (stack : list Frame) (t : Token)
  : option (Mode * list Frame) :=
  match m, t, stack with
  | PValueOrClose, TRBracket, FArray done :: st => complete (JArray (rev done) []) st
  | (PValue | PValueOrClose), _, _ => parse_value_token t stack
  | PKeyOrClose, TRBrace, FObject props :: st => complete (JObject props) st
  | (PKey | PKeyOrClose), TString k, FObject props :: st =>
      Some (PColon, FMember props k :: st)
  | PColon, TColon, _ => Some (PValue, stack)
  | PAfter, TComma, FArray _ :: _ => Some (PValue, stack)
  | PAfter, TComma, FObject _ :: _ => Some (PKey, stack)
  | PAfter, TRBracket, FArray done :: st => complete (JArray (rev done) []) st
  | PAfter, TRBrace, FObject props :: st => complete (JObject props) st
  | _, _, _ => None
  end.

Fixpoint parse_from (m : Mode) (stack : list Frame) (ts : list Token)
  : option JSValue :=
  match ts with
  | [] => match m with PDone v => Some v | _ => None end
  | t :: r =>
      match parse_step m stack t with
      | Some (m', stack') => parse_from m' stack' r
      | None => None
      end
  end.

Definition parse (s : jsstring) : option JSValue :=
  match lex s with
  | Some ts => parse_from PValue [] ts
  | None => None
  end.

End Json.

(** [JSON.parse(text)]: the value, or a [SyntaxError] (whose message
    differs between engines and is not modelled). *)
Definition JSON_parse (text : jsstring) : Completion JSValue :=
  match Json.parse text with
  | Some v => Normal v
  | None => Throw (SyntaxError "Unexpected token in JSON")
  end.

(* ================================================================== *)
(** * Operations on values *)
(* ================================================================== *)

(** A property name that is a canonical array index. *)
Definition array_index (k : jsstring) : option N :=
  match Json.span_digits k with
  | (_ :: _ as ds, []) =>
      let n := Z.to_N (Json.digits_value ds) in
      if jsstring_eqb (N_toString n) k then Some n else None
  | _ => None
  end.

Definition length_value {A} (xs : list A) : JSValue :=
  JNumber (inject_Z (Z.of_nat (List.length xs))).

(** [v.k] / [v[k]]: reading a property.  Reading from [undefined] or
    [null] throws; the properties inherited from the built-in prototypes
    are not modelled (the source reads [scores], [target_company] and
    [analysis_type], which no prototype defines). *)
Definition Get (v : JSValue) (k : jsstring) : Completion JSValue :=
  match v with
  | JUndefined | JNull =>
      Throw (TypeError "Cannot read properties of undefined or null")
  | JBool _ | JNumber _ => Normal JUndefined
  | JString s =>
      if jsstring_eqb k (js "length") then Normal (length_value s)
      else match array_index k with
           | Some i => match nth_error s (N.to_nat i) with
                       | Some c => Normal (JString [c])
                       | None => Normal JUndefined
                       end
           | None => Normal JUndefined
           end
  | JArray elems named =>
      if jsstring_eqb k (js "length") then Normal (length_value elems)
      else match array_index k with
           | Some i => match nth_error elems (N.to_nat i) with
                       | Some x => Normal x
                       | None => Normal JUndefined
                       end
           | None => match lookup k named with
                     | Some x => Normal x
                     | None => Normal JUndefined
                     end
           end
  | JObject props =>
      match lookup k props with
      | Some x => Normal x
      | None => Normal JUndefined
      end
  end.

Definition SCORES : jsstring := js "scores".

(** [swot.scores = x] in strict-mode code (the file is an ES module):
    an object or an array takes the property, a primitive throws. *)
Definition assign_scores (swot x : JSValue) : Completion JSValue :=
  match swot with
  | JObject props => Normal (JObject (define SCORES x props))
  | JArray elems named => Normal (JArray elems (define SCORES x named))
  | JUndefined | JNull =>
      Throw (TypeError "Cannot set properties of undefined or null")
  | JBool _ | JNumber _ | JString _ =>
      Throw (TypeError "Cannot create property 'scores' on a primitive")
  end.

(** The index-keyed entries of an array-like. *)
Fixpoint indexed {A} (i : nat) (xs : list A) : list (jsstring * A) :=
  match xs with
  | [] => []
  | x :: r => (Nat_toString i, x) :: indexed (S i) r
  end.

(** The own enumerable properties copied by [{...v}].  (The engine
    lists integer-like keys of a plain object first; that reordering is
    not modelled.) *)
Definition own_entries (v : JSValue) : list (jsstring * JSValue) :=
  match v with
  | JUndefined | JNull | JBool _ | JNumber _ => []
  | JString s => indexed 0 (map (fun c => JString [c]) s)
  | JArray elems named => indexed 0 elems ++ named
  | JObject props => props
  end.

(** [Object.values(v)] for a [v] other than [undefined] and [null]. *)
Definition Object_values (v : JSValue) : list JSValue := values (own_entries v).

(** Whether converting a value to a primitive ([ToString] in a template
    literal, [ToPrimitive] under [+]) completes.  Data read by
    [JSON.parse] holds no functions, so an own [toString] property hides
    the inherited method and the conversion throws a [TypeError]; an
    array is converted through [join], element by element. *)
Fixpoint stringifiable (v : JSValue) : bool :=
  match v with
  | JArray elems named =>
      if has_key (js "toString") named then false
      else if has_key (js "join") named then true
      else forallb stringifiable elems
  | JObject props => negb (has_key (js "toString") props)
  | _ => true
  end.

(** ** Text built by template literals *)

(** A template literal is kept as the sequence of its parts.  A part
    that is a string is stored as such; a part whose text depends on
    the decimal rendering of a number is stored unrendered. *)
Inductive Piece :=
| Lit (s : jsstring)
| Interp (v : JSValue)              (* a value under [ToString] *)
| AverageOf (vs : list JSValue)     (* [vs.reduce((a, b) => a + b, 0) / 5] *)
| Pretty (v : JSValue).             (* [JSON.stringify(v, null, 2)] *)

Definition Text := list Piece.

(** The text itself, when every part is a string. *)
Fixpoint plain (t : Text) : option jsstring :=
  match t with
  | [] => Some []
  | Lit s :: r => option_map (app s) (plain r)
  | _ :: _ => None
  end.

Definition interp (v : JSValue) : Completion Piece :=
  if stringifiable v then Normal (Interp v)
  else Throw (TypeError "Cannot convert object to primitive value").

Definition average_of (vs : list JSValue) : Completion Piece :=
  if forallb stringifiable vs then Normal (AverageOf vs)
  else Throw (TypeError "Cannot convert object to primitive value").

(* ================================================================== *)
(** * [encodeURIComponent] and [trim] *)
(* ================================================================== *)

Module Uri.

(** [A-Z a-z 0-9 - _ . ! ~ * ' ( )] are left as they are. *)
Definition unreserved (c : code_unit) : bool :=
  ((65 <=? c) && (c <=? 90)) || ((97 <=? c) && (c <=? 122))
  || ((48 <=? c) && (c <=? 57))
  || (c =? 45) || (c =? 95) || (c =? 46) || (c =? 33) || (c =? 126)
  || (c =? 42) || (c =? 39) || (c =? 40) || (c =? 41).

Definition is_high_surrogate (c : code_unit) : bool :=
  (55296 <=? c) && (c <=? 56319).
Definition is_low_surrogate (c : code_unit) : bool :=
  (56320 <=? c) && (c <=? 57343).

Definition hex_digit (d : N) : code_unit :=
  if d <? 10 then 48 + d else 55 + d.

(** [%XX], upper-case. *)
Definition percent (byte : N) : jsstring :=
  [37; hex_digit (byte / 16); hex_digit (byte mod 16)].

(** The UTF-8 octets of a code point. *)
Definition utf8 (cp : N) : list N :=
  if cp <? 128 then [cp]
  else if cp <? 2048 then [192 + cp / 64; 128 + cp mod 64]
  else if cp <? 65536 then
    [224 + cp / 4096; 128 + (cp / 64) mod 64; 128 + cp mod 64]
  else
    [240 + cp / 262144; 128 + (cp / 4096) mod 64;
     128 + (cp / 64) mod 64; 128 + cp mod 64].

Definition escape (cp : N) : jsstring := flat_map percent (utf8 cp).

(** [None] stands for the [URIError] thrown at an unpaired surrogate. *)
Fixpoint encode (s : jsstring) : option jsstring :=
  match s with
  | [] => Some []
  | c :: r =>
      if unreserved c then option_map (cons c) (encode r)
      else if is_low_surrogate c then None
      else if is_high_surrogate c then
        match r with
        | c2 :: r' =>
            if is_low_surrogate c2 then
              option_map
                (app (escape ((c - 55296) * 1024 + (c2 - 56320) + 65536)))
                (encode r')
            else None
        | [] => None
        end
      else option_map (app (escape c)) (encode r)
  end.

End Uri.

Definition encodeURIComponent (s : jsstring) : Completion jsstring :=
  match Uri.encode s with
  | Some e => Normal e
  | None => Throw (URIError "URI malformed")
  end.

(** White space and line terminators, as [String.prototype.trim]
    removes them. *)
Definition is_trim_space (c : code_unit) : bool :=
  ((9 <=? c) && (c <=? 13)) || (c =? 32) || (c =? 160) || (c =? 5760)
  || ((8192 <=? c) && (c <=? 8202)) || (c =? 8232) || (c =? 8233)
  || (c =? 8239) || (c =? 8287) || (c =? 12288) || (c =? 65279).

Fixpoint trim_start (s : jsstring) : jsstring :=
  match s with
  | c :: r => if is_trim_space c then trim_start r else s
  | [] => []
  end.

Definition trim (s : jsstring) : jsstring :=
  rev (trim_start (rev (trim_start s))).

(* ================================================================== *)
(** * Configuration ([../constants]) and types ([../types]) *)
(* ================================================================== *)

Record Price := { input : Q; output : Q }.

(** [PRICING]: an object literal from model identifier to price.  The
    source reads the key ['gemini-2.5-flash'] by name, so the table's
    type has it; the other keys are whatever the table lists. *)
Record PricingTable := {
  gemini_2_5_flash : Price;
  other_models : list (jsstring * Price)
}.

Definition DEFAULT_MODEL : jsstring := js "gemini-2.5-flash".

(** The names of the members every object literal inherits from
    [Object.prototype]. *)
Definition OBJECT_PROTOTYPE_MEMBERS : list jsstring :=
  [js "constructor"; js "__defineGetter__"; js "__defineSetter__";
   js "hasOwnProperty"; js "__lookupGetter__"; js "__lookupSetter__";
   js "isPrototypeOf"; js "propertyIsEnumerable"; js "toString";
   js "valueOf"; js "__proto__"; js "toLocaleString"].

Definition names_inherited_member (model : jsstring) : bool :=
  existsb (jsstring_eqb model) OBJECT_PROTOTYPE_MEMBERS.

(** [PRICING[model]], among the keys the table itself has.  For a
    [model] that is no key of the table but names an inherited member
    ([names_inherited_member]), the source reads that member instead: it
    is truthy and has neither [input] nor [output], so the cost is [NaN],
    which the rational numbers of this model do not have.  What is
    proved of [calculateCost] for a model the table does not list
    therefore carries the hypothesis that the name is not such a name. *)
Definition PRICING_get (t : PricingTable) (model : jsstring) : option Price :=
  if jsstring_eqb model DEFAULT_MODEL then Some (gemini_2_5_flash t)
  else lookup model (other_models t).

(** The lookup of [calculateCost] ends on a price: the table lists the
    model, or the name is not that of an inherited member (and the
    default price is taken). *)
Definition resolves_to_price (t : PricingTable) (model : jsstring) : Prop :=
  PRICING_get t model <> None \/ names_inherited_member model = false.

Record Models := {
  ROUTER : jsstring; HUNTER : jsstring; SCRAPER : jsstring;
  ANALYST : jsstring; REPORTER : jsstring
}.

Record Prompts := {
  ROUTER_SYSTEM : jsstring; ANALYST_SYSTEM : jsstring; REPORTER_SYSTEM : jsstring
}.

Record Config := { MODELS : Models; PRICING : PricingTable; PROMPTS : Prompts }.

Inductive AgentRole :=
| Role_ROUTER | Role_HUNTER | Role_SCRAPER | Role_ANALYST | Role_REPORTER.

(** The values the source gives to [LogEntry.type]: ['success'] and
    ['error']. *)
Inductive LogType := SUCCESS | ERROR.

Record LogEntry := {
  timestamp : jsstring;
  agent : AgentRole;
  message : Text;
  type : LogType;
  latencyMs : Q;
  tokenUsage : Q;
  cost : Q
}.

Record ScrapedContent := {
  url : jsstring;
  title : jsstring;
  snippet : jsstring;
  content : jsstring
}.

(* ================================================================== *)
(** * The model gateway *)
(* ================================================================== *)

Record UsageMetadata := {
  promptTokenCount : option Q;
  candidatesTokenCount : option Q;
  totalTokenCount : option Q
}.

Record Web := { uri : option jsstring; web_title : option jsstring }.
Record GroundingChunk := { web : option Web }.
Record GroundingMetadata := { groundingChunks : option (list GroundingChunk) }.
Record Candidate := { groundingMetadata : option GroundingMetadata }.

Record Response := {
  text : option jsstring;
  usageMetadata : option UsageMetadata;
  candidates : option (list Candidate)
}.

#[warnings="-register-all"]
Inductive Schema :=
| SString
| SInteger
| SArray (items : Schema)
| SObject (properties : list (string * Schema)) (required : list string).

Inductive Tool := googleSearch.

Record Request := {
  model : jsstring;
  contents : Text;
  systemInstruction : option jsstring;
  responseMimeType : option jsstring;
  responseSchema : option Schema;
  tools : list Tool
}.

(* ================================================================== *)
(** * Effects *)
(* ================================================================== *)

Inductive ConsoleEvent :=
| console_error_event (label : jsstring) (e : JSError)
| console_warn_event (label : jsstring) (e : JSError).

(** What the host provides: the constants, the gateway's answer to each
    request (a response, or a rejection), and the clocks, indexed by the
    number of clock readings made before. *)
Record Env := {
  config : Config;
  generateContent : Request -> Completion Response;
  performance_clock : nat -> Q;
  wall_clock : nat -> jsstring
}.

(** What a run leaves behind. *)
Record World := {
  console : list ConsoleEvent;
  sent : list Request;
  ticks : nat
}.

Definition initial_world : World := {| console := []; sent := []; ticks := 0 |}.

Definition M (A : Type) : Type := Env -> World -> Completion A * World.

Definition ret {A} (a : A) : M A := fun _ w => (Normal a, w).

Definition bind {A B} (m : M A) (k : A -> M B) : M B :=
  fun env w =>
    match m env w with
    | (Normal a, w') => k a env w'
    | (Throw e, w') => (Throw e, w')
    end.

Definition throw {A} (e : JSError) : M A := fun _ w => (Throw e, w).

(** [try { m } catch (e) { h e }] *)
Definition try_catch {A} (m : M A) (h : JSError -> M A) : M A :=
  fun env w =>
    match m env w with
    | (Normal a, w') => (Normal a, w')
    | (Throw e, w') => h e env w'
    end.

Definition lift {A} (c : Completion A) : M A := fun _ w => (c, w).

Definition ask : M Config := fun env w => (Normal (config env), w).

Definition tick (w : World) : World :=
  {| console := console w; sent := sent w; ticks := S (ticks w) |}.

(** [performance.now()] *)
Definition performance_now : M Q :=
  fun env w => (Normal (performance_clock env (ticks w)), tick w).

(** [new Date().toISOString()] *)
Definition Date_toISOString : M jsstring :=
  fun env w => (Normal (wall_clock env (ticks w)), tick w).

Definition log_console (ev : ConsoleEvent) : M unit :=
  fun _ w =>
    (Normal tt,
     {| console := console w ++ [ev]; sent := sent w; ticks := ticks w |}).

Definition console_error (label : string) (e : JSError) : M unit :=
  log_console (console_error_event (js label) e).
Definition console_warn (label : string) (e : JSError) : M unit :=
  log_console (console_warn_event (js label) e).

(** [await ai.models.generateContent(req)] *)
Definition generate (req : Request) : M Response :=
  fun env w =>
    (generateContent env req,
     {| console := console w; sent := sent w ++ [req]; ticks := ticks w |}).

Declare Scope js_scope.
Delimit Scope js_scope with js.
Notation "x <- m ;; k" := (bind m (fun x => k))
  (at level 61, m at next level, right associativity) : js_scope.
Notation "m ;; k" := (bind m (fun _ => k))
  (at level 61, right associativity) : js_scope.
Open Scope js_scope.

(* ================================================================== *)
(** * The cost estimator *)
(* ================================================================== *)

(** [x || 0] on an optional number. *)
Definition num_or_0 (x : option Q) : Q :=
  match x with
  | Some q => if (Qnum q =? 0)%Z then 0%Q else q
  | None => 0%Q
  end.

(** [PRICING[model] || PRICING['gemini-2.5-flash']] *)
Definition pricing_for (table : PricingTable) (model : jsstring) : Price :=
  match PRICING_get table model with
  | Some p => p
  | None => gemini_2_5_flash table
  end.

Definition calculateCost (table : PricingTable) (model : jsstring)
    (usage : option UsageMetadata) : Q :=
  match usage with
  | None => 0%Q
  | Some usage =>
      let pricing := pricing_for table model in
      let inputCost := (num_or_0 (promptTokenCount usage) / 1000 * input pricing)%Q in
      let outputCost := (num_or_0 (candidatesTokenCount usage) / 1000 * output pricing)%Q in
      (inputCost + outputCost)%Q
  end.

(** [response.usageMetadata?.totalTokenCount || 0] *)
Definition total_tokens (response : Response) : Q :=
  num_or_0 (match usageMetadata response with
            | Some u => totalTokenCount u
            | None => None
            end).

(* ================================================================== *)
(** * 1. Router *)
(* ================================================================== *)

Definition ROUTER_SCHEMA : Schema :=
  (SObject [("target_company", SString);
            ("analysis_type", SString);
            ("search_queries", SArray SString)]
           ["target_company"; "analysis_type"; "search_queries"])%string.

(** The returned object [{...result, log}]: the properties copied from
    the parsed value, and the [log] property that overrides any other. *)
Record RouterResult := {
  routed : list (jsstring * JSValue);
  router_log : LogEntry
}.

Definition field (k : string) (r : RouterResult) : JSValue :=
  match lookup (js k) (routed r) with
  | Some v => v
  | None => JUndefined
  end.

Definition target_company := field "target_company".
Definition analysis_type := field "analysis_type".
Definition search_queries := field "search_queries".

Definition routerRequest (cfg : Config) (query : jsstring) : Request :=
  {| model := ROUTER (MODELS cfg);
     contents := [Lit query];
     systemInstruction := Some (ROUTER_SYSTEM (PROMPTS cfg));
     responseMimeType := Some (js "application/json");
     responseSchema := Some ROUTER_SCHEMA;
     tools := [] |}.

Definition runRouterAgent (query : jsstring) : M RouterResult :=
  startTime <- performance_now ;;
  cfg <- ask ;;
  try_catch
    (response <- generate (routerRequest cfg query) ;;
     result <- lift (JSON_parse (str_or (text response) (js "{}"))) ;;
     endTime <- performance_now ;;
     now <- Date_toISOString ;;
     company <- lift (cbind (Get result (js "target_company")) interp) ;;
     analysis <- lift (cbind (Get result (js "analysis_type")) interp) ;;
     ret {| routed := remove (js "log") (own_entries result);
            router_log :=
              {| timestamp := now;
                 agent := Role_ROUTER;
                 message := [Lit (js "Identified target: "); company;
                             Lit (js " ("); analysis; Lit (js ")")];
                 type := SUCCESS;
                 latencyMs := (endTime - startTime)%Q;
                 tokenUsage := total_tokens response;
                 cost := calculateCost (PRICING cfg) (ROUTER (MODELS cfg))
                           (usageMetadata response) |} |})
    (fun error =>
       console_error "Router Agent Error:" error ;;
       throw error).

(* ================================================================== *)
(** * 2. Hunter *)
(* ================================================================== *)

Definition queryContext (queries : list jsstring) : jsstring :=
  match queries with
  | [] => []
  | _ :: _ =>
      js "Specifically investigate these topics: "
        ++ join (js ", ") queries ++ js "."
  end.

Definition hunterRequest (cfg : Config) (company : jsstring)
    (queries : list jsstring) : Request :=
  {| model := HUNTER (MODELS cfg);
     contents :=
       [Lit (js "Find the latest official news, pricing, and feature announcements for "
               ++ company ++ js ". " ++ queryContext queries
               ++ js " Be thorough and prioritize recent data.")];
     systemInstruction := None;
     responseMimeType := None;
     responseSchema := None;
     tools := [googleSearch] |}.

(** [response.candidates?.[0]?.groundingMetadata?.groundingChunks || []] *)
Definition groundingChunks_of (response : Response) : list GroundingChunk :=
  match candidates response with
  | Some (c :: _) =>
      match groundingMetadata c with
      | Some g => match groundingChunks g with Some l => l | None => [] end
      | None => []
      end
  | _ => []
  end.

(** [chunk.web?.uri && chunk.web?.title] *)
Definition has_uri_and_title (chunk : GroundingChunk) : bool :=
  match web chunk with
  | Some w => str_truthy (uri w) && str_truthy (web_title w)
  | None => false
  end.

(** [chunk.web.uri] and [chunk.web.title] of a chunk that has them. *)
Definition chunk_uri (chunk : GroundingChunk) : jsstring :=
  match web chunk with Some w => str_or (uri w) [] | None => [] end.
Definition chunk_title (chunk : GroundingChunk) : jsstring :=
  match web chunk with Some w => str_or (web_title w) [] | None => [] end.

Definition groundedUrls (response : Response) : list ScrapedContent :=
  map (fun chunk =>
         {| url := chunk_uri chunk;
            title := chunk_title chunk;
            snippet := slice0 200 (str_or (text response) []) ++ js "...";
            content := str_or (text response) [] |})
      (filter has_uri_and_title (groundingChunks_of response)).

Definition SEARCH_URL : jsstring := js "https://google.com/search?q=".

(** The value of [discoveredUrls] once the fallback has been applied. *)
Definition discoveredUrls (company : jsstring) (response : Response)
  : Completion (list ScrapedContent) :=
  match groundedUrls response, text response with
  | [], Some (c :: r) =>
      cbind (encodeURIComponent company) (fun q =>
      Normal [ {| url := SEARCH_URL ++ q;
                  title := company ++ js " Search Results";
                  snippet := slice0 150 (c :: r) ++ js "...";
                  content := c :: r |} ])
  | grounded, _ => Normal grounded
  end.

Definition optimizedUrls (urls : list ScrapedContent) : list ScrapedContent :=
  map (fun u =>
         {| url := url u; title := title u; snippet := snippet u;
            content := slice0 2000 (content u) |})
      urls.

Definition runHunterAgent (company : jsstring) (queries : list jsstring)
  : M (list ScrapedContent * LogEntry) :=
  startTime <- performance_now ;;
  cfg <- ask ;;
  try_catch
    (response <- generate (hunterRequest cfg company queries) ;;
     found <- lift (discoveredUrls company response) ;;
     endTime <- performance_now ;;
     now <- Date_toISOString ;;
     ret (optimizedUrls found,
          {| timestamp := now;
             agent := Role_HUNTER;
             message := [Lit (js "Discovered ");
                         Lit (Nat_toString (List.length found));
                         Lit (js " high-signal URLs via Google Search")];
             type := SUCCESS;
             latencyMs := (endTime - startTime)%Q;
             tokenUsage := total_tokens response;
             cost := calculateCost (PRICING cfg) (HUNTER (MODELS cfg))
                       (usageMetadata response) |}))
    (fun error =>
       console_error "Hunter Agent Error:" error ;;
       throw error).

(* ================================================================== *)
(** * 3. Scraper *)
(* ================================================================== *)

Definition NO_URLS : jsstring :=
  js "No specific URLs found, please analyze general knowledge about the company.".

(** One [Source/Title/Summary] block. *)
Definition sourceBlock (u : ScrapedContent) : jsstring :=
  js "Source: " ++ url u ++ LF ++ js "Title: " ++ title u ++ LF
    ++ js "Summary: " ++ slice0 2000 (content u).

Definition rawText (urls : list ScrapedContent) : jsstring :=
  match urls with
  | [] => NO_URLS
  | _ :: _ => join (LF ++ LF) (map sourceBlock urls)
  end.

Definition SCRAPER_INSTRUCTIONS : jsstring :=
  js "You are a Data Engineer. Clean and consolidate the following competitive intelligence data. "
    ++ LF
    ++ js "      Remove duplicates, noise, and marketing fluff. Preserve facts, numbers, dates, and pricing."
    ++ LF
    ++ js "      Keep the output concise (under 4000 tokens)."
    ++ LF
    ++ js "      "
    ++ LF
    ++ js "      RAW DATA:"
    ++ LF
    ++ js "      ".

Definition scraperRequest (cfg : Config) (urls : list ScrapedContent) : Request :=
  {| model := SCRAPER (MODELS cfg);
     contents := [Lit (SCRAPER_INSTRUCTIONS ++ rawText urls)];
     systemInstruction := None;
     responseMimeType := None;
     responseSchema := None;
     tools := [] |}.

Definition NO_SUMMARY : jsstring := js "Data extracted but no summary generated.".

Definition runScraperAgent (urls : list ScrapedContent) : M (jsstring * LogEntry) :=
  startTime <- performance_now ;;
  cfg <- ask ;;
  try_catch
    (response <- generate (scraperRequest cfg urls) ;;
     endTime <- performance_now ;;
     let extracted := str_or (text response) NO_SUMMARY in
     now <- Date_toISOString ;;
     ret (extracted,
          {| timestamp := now;
             agent := Role_SCRAPER;
             message := [Lit (js "Processed and cleaned content from ");
                         Lit (Nat_toString (List.length urls));
                         Lit (js " sources")];
             type := SUCCESS;
             latencyMs := (endTime - startTime)%Q;
             tokenUsage := total_tokens response;
             cost := calculateCost (PRICING cfg) (SCRAPER (MODELS cfg))
                       (usageMetadata response) |}))
    (fun error =>
       console_error "Scraper Agent Error:" error ;;
       throw error).

(* ================================================================== *)
(** * 4. Analyst *)
(* ================================================================== *)

Definition SCORE_KEYS : list jsstring :=
  [js "innovation"; js "market_share"; js "pricing_power";
   js "brand_reputation"; js "velocity"].

Definition uniform_scores (q : Q) : JSValue :=
  JObject (map (fun k => (k, JNumber q)) SCORE_KEYS).

(** The scores assigned when the parsed object has none. *)
Definition DEFAULT_SCORES : JSValue := uniform_scores 50.

(** The SWOT used when parsing fails. *)
Definition EMPTY_SWOT : JSValue :=
  JObject [(js "strengths", JArray [] []); (js "weaknesses", JArray [] []);
           (js "opportunities", JArray [] []); (js "threats", JArray [] []);
           (SCORES, uniform_scores 0)].

Definition ANALYST_SCHEMA : Schema :=
  (SObject [("strengths", SArray SString);
            ("weaknesses", SArray SString);
            ("opportunities", SArray SString);
            ("threats", SArray SString);
            ("scores",
             SObject [("innovation", SInteger); ("market_share", SInteger);
                      ("pricing_power", SInteger); ("brand_reputation", SInteger);
                      ("velocity", SInteger)]
                     ["innovation"; "market_share"; "pricing_power";
                      "brand_reputation"; "velocity"])]
           ["strengths"; "weaknesses"; "opportunities"; "threats"; "scores"])%string.

Definition NO_DATA : jsstring := js "No data available for analysis.".

(** [content && content.trim().length > 10 ? content : ...] *)
Definition safeContent (content : jsstring) : jsstring :=
  match content with
  | [] => NO_DATA
  | _ :: _ => if (10 <? List.length (trim content))%nat then content else NO_DATA
  end.

Definition analystRequest (cfg : Config) (content : jsstring) : Request :=
  {| model := ANALYST (MODELS cfg);
     contents := [Lit (js "Data: " ++ safeContent content)];
     systemInstruction := Some (ANALYST_SYSTEM (PROMPTS cfg));
     responseMimeType := Some (js "application/json");
     responseSchema := Some ANALYST_SCHEMA;
     tools := [] |}.

(** The body of the inner [try]: parse, then give the parsed value the
    default scores when its [scores] is falsy. *)
Definition parseSwot (response : Response) : Completion JSValue :=
  cbind (JSON_parse (str_or (text response) (js "{}"))) (fun swot =>
  cbind (Get swot SCORES) (fun scores =>
  if negb (truthy scores) then assign_scores swot DEFAULT_SCORES
  else Normal swot)).

(** [Object.values(swot.scores)] *)
Definition score_values (swot : JSValue) : Completion (list JSValue) :=
  cbind (Get swot SCORES) (fun scores =>
  match scores with
  | JUndefined | JNull =>
      Throw (TypeError "Cannot convert undefined or null to object")
  | _ => Normal (Object_values scores)
  end).

Definition runAnalystAgent (content : jsstring) : M (JSValue * LogEntry) :=
  startTime <- performance_now ;;
  cfg <- ask ;;
  try_catch
    (response <- generate (analystRequest cfg content) ;;
     swot <- try_catch
               (lift (parseSwot response))
               (fun e =>
                  console_warn "JSON parse failed, using fallback empty SWOT" e ;;
                  ret EMPTY_SWOT) ;;
     endTime <- performance_now ;;
     now <- Date_toISOString ;;
     average <- lift (cbind (score_values swot) average_of) ;;
     ret (swot,
          {| timestamp := now;
             agent := Role_ANALYST;
             message := [Lit (js "Generated SWOT analysis with "); average;
                         Lit (js "% avg score")];
             type := SUCCESS;
             latencyMs := (endTime - startTime)%Q;
             tokenUsage := total_tokens response;
             cost := calculateCost (PRICING cfg) (ANALYST (MODELS cfg))
                       (usageMetadata response) |}))
    (fun error =>
       console_error "Analyst Agent Error:" error ;;
       throw error).

(* ================================================================== *)
(** * 5. Reporter *)
(* ================================================================== *)

Definition reporterRequest (cfg : Config) (swot : JSValue)
    (rawData company : jsstring) : Request :=
  {| model := REPORTER (MODELS cfg);
     contents := [Lit (js "Company: " ++ company ++ LF ++ LF
                         ++ js "SWOT Analysis:" ++ LF);
                  Pretty swot;
                  Lit (LF ++ LF ++ js "Context Data:" ++ LF ++ rawData)];
     systemInstruction := Some (REPORTER_SYSTEM (PROMPTS cfg));
     responseMimeType := None;
     responseSchema := None;
     tools := [] |}.

Definition REPORT_FAILED : jsstring :=
  js "# Report Generation Failed" ++ LF ++ LF
    ++ js "The AI model encountered an error generating the final report. Please try again.".

Definition EMPTY_REPORT : JSError :=
  PlainError "Reporter agent returned empty content.".

Definition runReporterAgent (swot : JSValue) (rawData company : jsstring)
  : M (jsstring * LogEntry) :=
  startTime <- performance_now ;;
  cfg <- ask ;;
  try_catch
    (response <- generate (reporterRequest cfg swot rawData company) ;;
     endTime <- performance_now ;;
     match text response with
     | Some (c :: r) =>
         now <- Date_toISOString ;;
         ret (c :: r,
              {| timestamp := now;
                 agent := Role_REPORTER;
                 message := [Lit (js "Finalized executive report for ");
                             Lit company];
                 type := SUCCESS;
                 latencyMs := (endTime - startTime)%Q;
                 tokenUsage := total_tokens response;
                 cost := calculateCost (PRICING cfg) (REPORTER (MODELS cfg))
                           (usageMetadata response) |})
     | _ => throw EMPTY_REPORT
     end)
    (fun error =>
       console_error "Reporter Agent Error:" error ;;
       now <- Date_toISOString ;;
       ret (REPORT_FAILED,
            {| timestamp := now;
               agent := Role_REPORTER;
               message := [Lit (js "Failed to generate report: ");
                           Lit (Error_toString error)];
               type := ERROR;
               latencyMs := 0;
               tokenUsage := 0;
               cost := 0 |})).

(* ================================================================== *)
(** * The five stages, uniformly *)
(* ================================================================== *)

(** A call of one stage with its arguments. *)
Inductive StageCall :=
| CallRouter (query : jsstring)
| CallHunter (company : jsstring) (queries : list jsstring)
| CallScraper (urls : list ScrapedContent)
| CallAnalyst (content : jsstring)
| CallReporter (swot : JSValue) (rawData company : jsstring).

(** The request the stage sends to the gateway. *)
Definition stageRequest (cfg : Config) (c : StageCall) : Request :=
  match c with
  | CallRouter query => routerRequest cfg query
  | CallHunter company queries => hunterRequest cfg company queries
  | CallScraper urls => scraperRequest cfg urls
  | CallAnalyst content => analystRequest cfg content
  | CallReporter swot rawData company => reporterRequest cfg swot rawData company
  end.

(** The [LogEntry] the stage hands to its caller, or the error it throws. *)
Definition stageLog (c : StageCall) : M LogEntry :=
  match c with
  | CallRouter query => r <- runRouterAgent query ;; ret (router_log r)
  | CallHunter company queries => r <- runHunterAgent company queries ;; ret (snd r)
  | CallScraper urls => r <- runScraperAgent urls ;; ret (snd r)
  | CallAnalyst content => r <- runAnalystAgent content ;; ret (snd r)
  | CallReporter swot rawData company =>
      r <- runReporterAgent swot rawData company ;; ret (snd r)
  end.

(** Running a stage from a fresh world. *)
Definition run {A} (m : M A) (env : Env) : Completion A * World :=
  m env initial_world.

(* ================================================================== *)
(** * 6. Chat session *)
(* ================================================================== *)

(** The argument of [ai.chats.create]. *)
Record ChatConfig := {
  chat_model : jsstring;
  chat_tools : list Tool;
  chat_systemInstruction : jsstring
}.

Definition CHAT_PREAMBLE : jsstring :=
  js "You are a Senior Competitive Intelligence Analyst." ++ LF
    ++ js "      " ++ LF
    ++ js "      You have access to a generated report context (provided below), which you should use as a primary source if the user asks about the specific target company." ++ LF
    ++ js "      " ++ LF
    ++ js "      CRITICAL INSTRUCTION:" ++ LF
    ++ js "      You are NOT limited to the provided context." ++ LF
    ++ js "      If the user asks about a different company, a general topic, or something not in the report (e.g., asking about TCS when the report is about Tata Motors), you MUST answer using your general knowledge and the Google Search tool." ++ LF
    ++ js "      " ++ LF
    ++ json_text "      DO NOT say 'The report does not contain information about...'." ++ LF
    ++ js "      DO NOT apologize for missing context." ++ LF
    ++ js "      Simply answer the question to the best of your ability using all tools available to you." ++ LF
    ++ js "      " ++ LF
    ++ js "      CONTEXT DATA:" ++ LF
    ++ js "      ".

Definition CHAT_GUIDELINES : jsstring :=
  LF ++ js "      " ++ LF
    ++ js "      Guidelines:" ++ LF
    ++ js "      - Be concise, professional, and data-driven." ++ LF
    ++ js "      - Use bullet points for lists.".

Definition createChatSession (cfg : Config) (context : jsstring) : ChatConfig :=
  {| chat_model := ANALYST (MODELS cfg);
     chat_tools := [googleSearch];
     chat_systemInstruction := CHAT_PREAMBLE ++ context ++ CHAT_GUIDELINES |}.

(* ================================================================== *)
(** * Vocabulary of the properties *)
(* ================================================================== *)

(** An absent count read as 0. *)
Definition count_or_zero (x : option Q) : Q :=
  match x with Some q => q | None => 0%Q end.



Definition nonneg_price (p : Price) : Prop := (0 <= input p /\ 0 <= output p)%Q.

Definition nonneg_prices (t : PricingTable) : Prop :=
  nonneg_price (gemini_2_5_flash t)
  /\ Forall (fun e => nonneg_price (snd e)) (other_models t).

Definition nonneg_count (x : option Q) : Prop :=
  match x with Some q => (0 <= q)%Q | None => True end.

(** Token counts are counts: none of them is negative. *)
Definition nonneg_usage (usage : option UsageMetadata) : Prop :=
  match usage with
  | Some u => nonneg_count (promptTokenCount u) /\ nonneg_count (candidatesTokenCount u)
  | None => True
  end.

(** ** A configuration and a gateway to run the stages on *)

Definition demo_config : Config :=
  {| MODELS := {| ROUTER := js "gemini-2.5-flash";
                  HUNTER := js "gemini-2.5-flash";
                  SCRAPER := js "gemini-2.5-flash";
                  ANALYST := js "gemini-2.5-pro";
                  REPORTER := js "gemini-2.5-pro" |};
     PRICING := {| gemini_2_5_flash := {| input := 3 # 10000; output := 25 # 10000 |};
                   other_models :=
                     [(js "gemini-2.5-pro",
                       {| input := 125 # 100000; output := 1 # 100 |})] |};
     PROMPTS := {| ROUTER_SYSTEM := js "Route the query.";
                   ANALYST_SYSTEM := js "Produce a SWOT analysis.";
                   REPORTER_SYSTEM := js "Write the report." |} |}.

(** A host whose gateway gives the same answer to every request. *)
Definition demo_env (answer : Completion Response) : Env :=
  {| config := demo_config;
     generateContent := fun _ => answer;
     performance_clock := fun k => inject_Z (Z.of_nat (100 * k));
     wall_clock := fun _ => js "2025-01-01T00:00:00.000Z" |}.

Definition demo_usage (prompt candidates total : option Q) : option UsageMetadata :=
  Some {| promptTokenCount := prompt;
          candidatesTokenCount := candidates;
          totalTokenCount := total |}.

(** A response carrying only text and usage. *)
Definition text_response (t : option jsstring) (u : option UsageMetadata) : Response :=
  {| text := t; usageMetadata := u; candidates := None |}.

(** The gateway call failed, or its response has no text. *)
Definition gateway_failed_or_empty (env : Env) (req : Request) : Prop :=
  match generateContent env req with
  | Throw _ => True
  | Normal resp => str_truthy (text resp) = false
  end.

(** No grounding reference has both a URI and a title. *)
Definition no_grounding_references (resp : Response) : Prop :=
  filter has_uri_and_title (groundingChunks_of resp) = [].

(** A grounding chunk with the given URI and title. *)
Definition demo_chunk (u t : option jsstring) : GroundingChunk :=
  {| web := Some {| uri := u; web_title := t |} |}.

Definition grounded_response (t : option jsstring) (chunks : list GroundingChunk)
  : Response :=
  {| text := t;
     usageMetadata := None;
     candidates :=
       Some [ {| groundingMetadata := Some {| groundingChunks := Some chunks |} |} ] |}.

(** A text of [n] letters. *)
Definition long_text (n : nat) : jsstring := repeat 97 n.

(** [s] occurs in [t]. *)
Definition occurs_in (s t : jsstring) : Prop :=
  exists before after, t = before ++ s ++ after.

(** An integer between 0 and 100. *)
Definition is_score (v : JSValue) : bool :=
  match v with
  | JNumber q =>
      let r := Qred q in
      (Z.pos (Qden r) =? 1)%Z && (0 <=? Qnum r)%Z && (Qnum r <=? 100)%Z
  | _ => false
  end.

(** A scores mapping with exactly the five fixed keys, each bound to an
    integer between 0 and 100. *)
Definition fully_scored (scores : JSValue) : bool :=
  match scores with
  | JObject props =>
      (List.length props =? 5)%nat
      && forallb (fun k => match lookup k props with
                           | Some v => is_score v
                           | None => false
                           end) SCORE_KEYS
  | _ => false
  end.

(** Objects and arrays take new properties; primitives do not. *)
Definition is_object (v : JSValue) : bool :=
  match v with
  | JObject _ | JArray _ _ => true
  | _ => false
  end.

(** The property [k] of the property [scores] of a SWOT value. *)
Definition score (swot : JSValue) (k : string) : Completion JSValue :=
  cbind (Get swot SCORES) (fun scores => Get scores (js k)).

(** A usage record with a total but no prompt and no candidates count. *)
Definition total_only (resp : Response) (total : Q) : Prop :=
  exists u, usageMetadata resp = Some u
            /\ promptTokenCount u = None
            /\ candidatesTokenCount u = None
            /\ totalTokenCount u = Some total.

(** The Analyst returns normally a SWOT whose [scores] is [sc]. *)
Definition returns_scores (env : Env) (w : World) (content : jsstring)
    (sc : JSValue) : Prop :=
  exists swot log w',
    runAnalystAgent content env w = (Normal (swot, log), w')
    /\ Get swot SCORES = Normal sc.

(** ** Vocabulary of the further properties *)

Definition is_reporter (c : StageCall) : bool :=
  match c with CallReporter _ _ _ => true | _ => false end.

Definition is_analyst (c : StageCall) : bool :=
  match c with CallAnalyst _ => true | _ => false end.

(** The role a stage writes into its [LogEntry]. *)
Definition role_of (c : StageCall) : AgentRole :=
  match c with
  | CallRouter _ => Role_ROUTER
  | CallHunter _ _ => Role_HUNTER
  | CallScraper _ => Role_SCRAPER
  | CallAnalyst _ => Role_ANALYST
  | CallReporter _ _ _ => Role_REPORTER
  end.

(** The label of a stage's [console.error]. *)
Definition error_label (c : StageCall) : jsstring :=
  match c with
  | CallRouter _ => js "Router Agent Error:"
  | CallHunter _ _ => js "Hunter Agent Error:"
  | CallScraper _ => js "Scraper Agent Error:"
  | CallAnalyst _ => js "Analyst Agent Error:"
  | CallReporter _ _ _ => js "Reporter Agent Error:"
  end.

Definition is_warning (ev : ConsoleEvent) : bool :=
  match ev with console_warn_event _ _ => true | console_error_event _ _ => false end.

(** The performance clock never runs backwards. *)
Definition monotone_clock (env : Env) : Prop :=
  forall k, (performance_clock env k <= performance_clock env (S k))%Q.

(** No count of the response is negative. *)
Definition nonneg_response (resp : Response) : Prop :=
  nonneg_usage (usageMetadata resp)
  /\ match usageMetadata resp with
     | Some u => nonneg_count (totalTokenCount u)
     | None => True
     end.

Definition is_number (v : JSValue) : bool :=
  match v with JNumber _ => true | _ => false end.

(** A code unit that [encodeURIComponent] may write: an unreserved one,
    or the percent sign. *)
Definition uri_safe (c : code_unit) : bool := Uri.unreserved c || (c =? 37).

Definition ELLIPSIS : jsstring := js "...".

(** The number of code units of the blocks of the records, each with
    its two-line-feed separator counted. *)
Fixpoint blocks_size (urls : list ScrapedContent) : nat :=
  match urls with
  | [] => 0
  | u :: rest =>
      (List.length (url u) + List.length (title u) + 2028 + blocks_size rest)%nat
  end.

(** Every code unit is a 16-bit one. *)
Definition sixteen_bit (s : jsstring) : bool := forallb (fun c => c <? 65536) s.

(** The record built from a grounding chunk that has a URI and a title. *)
Definition record_of_chunk (response : Response) (chunk : GroundingChunk)
  : ScrapedContent :=
  {| url := chunk_uri chunk;
     title := chunk_title chunk;
     snippet := slice0 200 (str_or (text response) []) ++ ELLIPSIS;
     content := slice0 2000 (str_or (text response) []) |}.

(* ================================================================== *)
(** * Proof tools *)
(* ================================================================== *)

Lemma jsstring_eqb_eq (a b : jsstring) : jsstring_eqb a b = true <-> a = b.
Proof.
  unfold jsstring_eqb. destruct (list_eq_dec N.eq_dec a b); split;
    intros; congruence.
Qed.

Lemma jsstring_eqb_refl (a : jsstring) : jsstring_eqb a a = true.
Proof. now apply jsstring_eqb_eq. Qed.

(** Unfolds the monadic operations of a stage. *)
Ltac run_stage :=
  cbv beta iota delta
    [bind try_catch performance_now ask generate lift ret throw
     Date_toISOString console_error console_warn log_console tick cbind].

Lemma str_or_falsy (s : option jsstring) (d : jsstring) :
  str_truthy s = false -> str_or s d = d.
Proof. destruct s as [[|]|]; simpl; congruence. Qed.

Lemma str_or_truthy (s : option jsstring) (d : jsstring) :
  str_truthy s = true -> s = Some (str_or s d) /\ str_or s d <> [].
Proof. destruct s as [[|]|]; simpl; try discriminate. intros _. now split. Qed.

Lemma parse_empty_object : JSON_parse (js "{}") = Normal (JObject []).
Proof. reflexivity. Qed.

(* ================================================================== *)
(** * The built-ins on examples *)
(* ================================================================== *)

Example parse_object :
  JSON_parse (json_text " {'a': [1, 2.5, -3e2, {'b': null}], 'c': 'x\ny', 'a': true} ")
  = Normal (JObject [(js "a", JBool true); (js "c", JString (js "x" ++ LF ++ js "y"))]).
Proof. reflexivity. Qed.

Example parse_numbers :
  map (fun t => JSON_parse (js t)) ["0"; "-0"; "12.50"; "1e2"; "25E-1"]%string
  = map (fun q => Normal (JNumber q)) [0; 0; 25 # 2; 100; 5 # 2]%Q.
Proof. reflexivity. Qed.

Example parse_surrogate_escape :
  JSON_parse (json_text "'\uD83D\ude00 \ud800'")
  = Normal (JString [55357; 56832; 32; 55296]).
Proof. reflexivity. Qed.

Example parse_rejects :
  forallb (fun t => match JSON_parse (json_text t) with
                    | Throw _ => true
                    | Normal _ => false
                    end)
          [""; "{"; "[1,]"; "{'a':1,}"; "{'a'}"; "{a:1}"; "01"; "1."; ".5"; "+1";
           "-"; "1e"; "tru"; "nulll"; "'abc"; "'\x'"; "1 2"; "{}{}"; "[}";
           "Here is the SWOT: {}"]%string
  = true.
Proof. reflexivity. Qed.

Example encode_company :
  encodeURIComponent (js "Acme Corp & Sons (US)") =
  Normal (js "Acme%20Corp%20%26%20Sons%20(US)").
Proof. reflexivity. Qed.

Example encode_beyond_ascii :
  encodeURIComponent [233; 8364; 55357; 56832] =
  Normal (js "%C3%A9%E2%82%AC%F0%9F%98%80").
Proof. reflexivity. Qed.

Example encode_unpaired_surrogate :
  encodeURIComponent [65; 55357] = Throw (URIError "URI malformed").
Proof. reflexivity. Qed.

Example trim_spaces :
  trim ([32; 9; 160] ++ js "a b" ++ [10; 13; 8232]) = js "a b".
Proof. reflexivity. Qed.

Example stringifiable_examples :
  map stringifiable
      [JObject [(js "a", JNumber 1)];
       JObject [(js "toString", JNumber 1)];
       JArray [JNull; JObject [(js "toString", JNull)]] []]
  = [true; false; false].
Proof. reflexivity. Qed.

(* ================================================================== *)
(** * Properties of the cost estimator *)
(* ================================================================== *)

Lemma num_or_0_count (x : option Q) : (num_or_0 x == count_or_zero x)%Q.
Proof.
  destruct x as [q|]; simpl; [|reflexivity].
  destruct (Qnum q =? 0)%Z eqn:E; [|reflexivity].
  apply Z.eqb_eq in E. unfold Qeq. simpl. rewrite E. reflexivity.
Qed.

Lemma num_or_0_nonneg (x : option Q) : nonneg_count x -> (0 <= num_or_0 x)%Q.
Proof.
  intros H. rewrite num_or_0_count. destruct x; simpl in *; [assumption|].
  apply Qle_refl.
Qed.

Lemma lookup_In {V} (k : jsstring) (props : list (jsstring * V)) (v : V) :
  lookup k props = Some v -> In (k, v) props.
Proof.
  induction props as [|[k' v'] rest IH]; simpl; [discriminate|].
  destruct (jsstring_eqb k k') eqn:E.
  - intros [= ->]. apply jsstring_eqb_eq in E. subst. now left.
  - intros H. right. now apply IH.
Qed.

Lemma pricing_for_nonneg (t : PricingTable) (model : jsstring) :
  nonneg_prices t -> nonneg_price (pricing_for t model).
Proof.
  intros [Hd Ho]. unfold pricing_for, PRICING_get.
  destruct (jsstring_eqb model DEFAULT_MODEL); [assumption|].
  destruct (lookup model (other_models t)) as [p|] eqn:E; [|assumption].
  apply lookup_In in E. rewrite Forall_forall in Ho. exact (Ho _ E).
Qed.

Lemma per_thousand_nonneg (n price : Q) :
  (0 <= n -> 0 <= price -> 0 <= n / 1000 * price)%Q.
Proof.
  intros Hn Hp. apply Qmult_le_0_compat; [|assumption].
  apply Qle_shift_div_l; [reflexivity|]. now rewrite Qmult_0_l.
Qed.





Example cost_of_known_model :
  (calculateCost (PRICING demo_config) (js "gemini-2.5-pro")
     (demo_usage (Some 1000%Q) (Some 500%Q) (Some 1500%Q)) == 625 # 100000)%Q.
Proof. reflexivity. Qed.

Example cost_of_unknown_model :
  calculateCost (PRICING demo_config) (js "some-other-model")
    (demo_usage (Some 1000%Q) None None)
  = calculateCost (PRICING demo_config) (js "gemini-2.5-flash")
      (demo_usage (Some 1000%Q) None None).
Proof. reflexivity. Qed.



(* ================================================================== *)
(** * Properties of the Router *)
(* ================================================================== *)

(** C4.  When the text handed to [JSON.parse] (the response text, or
    [{}] in place of an absent or empty one) does not parse, the Router
    repairs nothing: it reports the error on the console and throws the
    very error [JSON.parse] threw, returning no routing decision.  Such a
    text is never the substitute [{}], so the response text is non-empty. *)
Theorem router_malformed_output_propagates
    (env : Env) (w : World) (query : jsstring) (resp : Response) (e : JSError) :
  generateContent env (routerRequest (config env) query) = Normal resp ->
  JSON_parse (str_or (text resp) (js "{}")) = Throw e ->
  exists w',
    runRouterAgent query env w = (Throw e, w')
    /\ console w' = console w ++ [console_error_event (js "Router Agent Error:") e]
    /\ str_truthy (text resp) = true.
Proof.
  intros Hgw Hparse.
  unfold runRouterAgent. run_stage. simpl. rewrite Hgw, Hparse.
  eexists. split; [reflexivity|]. split; [reflexivity|].
  destruct (str_truthy (text resp)) eqn:E; [reflexivity|].
  rewrite (str_or_falsy _ _ E), parse_empty_object in Hparse. discriminate.
Qed.

Lemma router_malformed_output_witness :
  exists w',
    runRouterAgent (js "Analyze Acme Corp pricing")
      (demo_env (Normal (text_response (Some (js "Sorry, I cannot help.")) None)))
      initial_world
    = (Throw (SyntaxError "Unexpected token in JSON"), w')
    /\ console w' = console initial_world
         ++ [console_error_event (js "Router Agent Error:")
               (SyntaxError "Unexpected token in JSON")]
    /\ str_truthy (Some (js "Sorry, I cannot help.")) = true.
Proof.
  apply (router_malformed_output_propagates
           (demo_env (Normal (text_response (Some (js "Sorry, I cannot help.")) None)))
           initial_world (js "Analyze Acme Corp pricing")
           (text_response (Some (js "Sorry, I cannot help.")) None)).
  - reflexivity.
  - reflexivity.
Defined.

(** C9.  When the response text is absent or empty, [JSON.parse] is
    applied to [{}]: the Router returns normally, with a [LogEntry] of
    status SUCCESS, and [target_company], [analysis_type] and
    [search_queries] are all [undefined] (the returned object has no
    property but [log]). *)
Theorem router_empty_text_succeeds
    (env : Env) (w : World) (query : jsstring) (resp : Response) :
  generateContent env (routerRequest (config env) query) = Normal resp ->
  str_truthy (text resp) = false ->
  exists r w',
    runRouterAgent query env w = (Normal r, w')
    /\ str_or (text resp) (js "{}") = js "{}"
    /\ type (router_log r) = SUCCESS
    /\ agent (router_log r) = Role_ROUTER
    /\ routed r = []
    /\ target_company r = JUndefined
    /\ analysis_type r = JUndefined
    /\ search_queries r = JUndefined
    /\ console w' = console w.
Proof.
  intros Hgw Hempty.
  unfold runRouterAgent. run_stage. simpl. rewrite Hgw.
  rewrite (str_or_falsy _ _ Hempty), parse_empty_object. simpl.
  eexists _, _. repeat split; reflexivity.
Qed.

Lemma router_empty_text_witness :
  exists r w',
    runRouterAgent (js "Analyze Acme Corp pricing")
      (demo_env (Normal (text_response (Some []) None))) initial_world
    = (Normal r, w')
    /\ str_or (Some []) (js "{}") = js "{}"
    /\ type (router_log r) = SUCCESS
    /\ agent (router_log r) = Role_ROUTER
    /\ routed r = []
    /\ target_company r = JUndefined
    /\ analysis_type r = JUndefined
    /\ search_queries r = JUndefined
    /\ console w' = console initial_world.
Proof.
  apply (router_empty_text_succeeds
           (demo_env (Normal (text_response (Some []) None)))
           initial_world (js "Analyze Acme Corp pricing")
           (text_response (Some []) None)).
  - reflexivity.
  - reflexivity.
Defined.

(* ================================================================== *)
(** * Properties of the Reporter *)
(* ================================================================== *)

Lemma REPORT_FAILED_nonempty : REPORT_FAILED <> [].
Proof. discriminate. Qed.

(** C3.  The Reporter never throws: it always returns a report, and the
    report is never empty.  When the gateway call fails, or the response
    has no text, the report is the fixed failure placeholder and the
    [LogEntry] has status ERROR with [latencyMs], [tokenUsage] and [cost]
    all 0; its message names the error, which is also reported on the
    console. *)
Theorem reporter_never_propagates
    (env : Env) (w : World) (swot : JSValue) (rawData company : jsstring) :
  exists report log w',
    runReporterAgent swot rawData company env w = (Normal (report, log), w')
    /\ report <> []
    /\ (gateway_failed_or_empty env
          (reporterRequest (config env) swot rawData company) ->
        report = REPORT_FAILED
        /\ agent log = Role_REPORTER
        /\ type log = ERROR
        /\ latencyMs log = 0%Q
        /\ tokenUsage log = 0%Q
        /\ cost log = 0%Q
        /\ exists e,
             message log = [Lit (js "Failed to generate report: ");
                            Lit (Error_toString e)]
             /\ console w' = console w
                  ++ [console_error_event (js "Reporter Agent Error:") e]).
Proof.
  unfold gateway_failed_or_empty, runReporterAgent. run_stage. simpl.
  destruct (generateContent env _) as [resp|e].
  - destruct (text resp) as [[|c r]|] eqn:T; simpl.
    + eexists _, _, _. split; [reflexivity|].
      split; [apply REPORT_FAILED_nonempty|]. intros _.
      repeat split. exists EMPTY_REPORT. now split.
    + eexists _, _, _. split; [reflexivity|]. split; [discriminate|].
      discriminate.
    + eexists _, _, _. split; [reflexivity|].
      split; [apply REPORT_FAILED_nonempty|]. intros _.
      repeat split. exists EMPTY_REPORT. now split.
  - eexists _, _, _. split; [reflexivity|].
    split; [apply REPORT_FAILED_nonempty|]. intros _.
    repeat split. exists e. now split.
Qed.

Lemma reporter_never_propagates_witness :
  exists report log w',
    runReporterAgent EMPTY_SWOT (js "No data.") (js "Acme Corp")
      (demo_env (Throw (PlainError "503 Service Unavailable"))) initial_world
    = (Normal (report, log), w')
    /\ report = REPORT_FAILED
    /\ type log = ERROR
    /\ latencyMs log = 0%Q /\ tokenUsage log = 0%Q /\ cost log = 0%Q.
Proof.
  destruct (reporter_never_propagates
              (demo_env (Throw (PlainError "503 Service Unavailable")))
              initial_world EMPTY_SWOT (js "No data.") (js "Acme Corp"))
    as (report & log & w' & Hrun & _ & H).
  exists report, log, w'. split; [exact Hrun|].
  destruct H as (Hr & _ & Ht & Hl & Hu & Hc & _); [exact I|].
  repeat split; assumption.
Defined.

(* ================================================================== *)
(** * Properties of the Hunter *)
(* ================================================================== *)


Lemma slice0_length (n : nat) (s : jsstring) : (List.length (slice0 n s) <= n)%nat.
Proof. unfold slice0. apply firstn_le_length. Qed.

Lemma slice0_short (n : nat) (s : jsstring) :
  (List.length s <= n)%nat -> slice0 n s = s.
Proof. unfold slice0. apply firstn_all2. Qed.

Lemma optimizedUrls_capped (urls : list ScrapedContent) :
  Forall (fun u => (List.length (content u) <= 2000)%nat) (optimizedUrls urls).
Proof.
  unfold optimizedUrls. apply Forall_forall. intros u Hin.
  apply in_map_iff in Hin as (u0 & <- & _). simpl. apply slice0_length.
Qed.




(** Why the company name must be well-formed: the fallback URL is built
    with [encodeURIComponent], whose error the stage rethrows. *)
Example hunter_unpaired_surrogate :
  fst (run (runHunterAgent [65; 55357] [])
           (demo_env (Normal (text_response (Some (js "Acme Corp raised prices.")) None))))
  = Throw (URIError "URI malformed").
Proof. reflexivity. Qed.


(** C7.  Every record the Hunter returns, whether it comes from a
    grounding reference or from the fallback, is a record of
    [discoveredUrls] with its content cut to the first 2000 code units:
    no returned content is longer than 2000. *)
Theorem hunter_content_capped
    (env : Env) (w w' : World) (company : jsstring) (queries : list jsstring)
    (urls : list ScrapedContent) (log : LogEntry) :
  runHunterAgent company queries env w = (Normal (urls, log), w') ->
  Forall (fun u => (List.length (content u) <= 2000)%nat) urls
  /\ exists resp found,
       generateContent env (hunterRequest (config env) company queries) = Normal resp
       /\ discoveredUrls company resp = Normal found
       /\ urls = map (fun u => {| url := url u; title := title u;
                                  snippet := snippet u;
                                  content := slice0 2000 (content u) |}) found.
Proof.
  unfold runHunterAgent. run_stage. simpl.
  destruct (generateContent env _) as [resp|e] eqn:Hgw; [|discriminate].
  destruct (discoveredUrls company resp) as [found|e] eqn:Hd; [|discriminate].
  intros [= <- <- <-]. split.
  - apply optimizedUrls_capped.
  - now exists resp, found.
Qed.

Lemma hunter_content_capped_witness :
  exists urls log w',
    runHunterAgent (js "Acme Corp") []
      (demo_env (Normal (grounded_response (Some (long_text 2100))
                           [demo_chunk (Some (js "https://acme.example/news"))
                                       (Some (js "Acme news"))])))
      initial_world
    = (Normal (urls, log), w')
    /\ List.length urls = 1%nat
    /\ Forall (fun u => (List.length (content u) <= 2000)%nat) urls.
Proof.
  eexists _, _, _. split; [vm_compute; reflexivity|].
  split; [reflexivity|].
  eapply (hunter_content_capped
            (demo_env (Normal (grounded_response (Some (long_text 2100))
                                 [demo_chunk (Some (js "https://acme.example/news"))
                                             (Some (js "Acme news"))])))
            initial_world _ (js "Acme Corp") []).
  vm_compute. reflexivity.
Defined.

(* ================================================================== *)
(** * Properties of the Scraper *)
(* ================================================================== *)

Lemma NO_URLS_nonempty : NO_URLS <> [].
Proof. discriminate. Qed.

Lemma join_blocks_nonempty (u : ScrapedContent) (rest : list ScrapedContent) :
  join (LF ++ LF) (map sourceBlock (u :: rest)) <> [].
Proof. destruct rest; discriminate. Qed.

Lemma join_occurs (sep : jsstring) (xs : list jsstring) (x : jsstring) :
  In x xs -> occurs_in x (join sep xs).
Proof.
  induction xs as [|y rest IH]; [contradiction|].
  intros [->|Hin].
  - destruct rest as [|z rest'].
    + exists [], []. simpl. now rewrite app_nil_r.
    + exists [], (sep ++ join sep (z :: rest')). reflexivity.
  - destruct rest as [|z rest']; [contradiction|].
    destruct (IH Hin) as (before & after & Hj).
    exists (y ++ sep ++ before), after.
    change (join sep (y :: z :: rest')) with (y ++ sep ++ join sep (z :: rest')).
    rewrite Hj. now rewrite <- !app_assoc.
Qed.

(** C8.  The Scraper sends the gateway one request, whose prompt is the
    fixed instructions followed by the raw text.  For the empty
    sequence the raw text is the fixed sentence that no specific URLs
    were found and general knowledge is to be analysed, so that sentence
    occurs in the prompt; for a non-empty sequence it is the blocks of
    the records, one per record and in their order, separated by blank
    lines (so every record's block occurs in the prompt), each block
    being [Source:], [Title:] and [Summary:] lines with the summary the
    first 2000 code units of the content.  The raw text is never empty. *)
Theorem scraper_prompt (env : Env) (w : World) (urls : list ScrapedContent) :
  let req := scraperRequest (config env) urls in
  sent (snd (runScraperAgent urls env w)) = sent w ++ [req]
  /\ plain (contents req) = Some (SCRAPER_INSTRUCTIONS ++ rawText urls)
  /\ rawText urls <> []
  /\ (urls = [] ->
      rawText urls = NO_URLS
      /\ forall prompt, plain (contents req) = Some prompt -> occurs_in NO_URLS prompt)
  /\ (urls <> [] ->
      rawText urls = join (LF ++ LF) (map sourceBlock urls)
      /\ List.length (map sourceBlock urls) = List.length urls)
  /\ (forall u prompt,
        In u urls -> plain (contents req) = Some prompt ->
        occurs_in (sourceBlock u) prompt)
  /\ (forall u,
        sourceBlock u =
          js "Source: " ++ url u ++ LF ++ js "Title: " ++ title u ++ LF
            ++ js "Summary: " ++ slice0 2000 (content u)
        /\ (List.length (slice0 2000 (content u)) <= 2000)%nat).
Proof.
  cbv zeta.
  assert (Hplain : plain (contents (scraperRequest (config env) urls))
                   = Some (SCRAPER_INSTRUCTIONS ++ rawText urls)).
  { cbn [scraperRequest contents plain option_map]. now rewrite app_nil_r. }
  split; [|split; [exact Hplain|split; [|split; [|split; [|split]]]]].
  - unfold runScraperAgent. run_stage. cbn [fst snd sent ticks console].
    destruct (generateContent env _); reflexivity.
  - destruct urls as [|u rest]; [apply NO_URLS_nonempty|apply join_blocks_nonempty].
  - intros ->. split; [reflexivity|].
    intros prompt Hp. rewrite Hplain in Hp. injection Hp as <-.
    exists SCRAPER_INSTRUCTIONS, []. now rewrite app_nil_r.
  - intros Hne. destruct urls as [|u rest]; [contradiction|].
    split; [reflexivity|apply length_map].
  - intros u prompt Hin Hp. rewrite Hplain in Hp. injection Hp as <-.
    destruct urls as [|u0 rest]; [contradiction|].
    destruct (join_occurs (LF ++ LF) (map sourceBlock (u0 :: rest)) (sourceBlock u))
      as (before & after & Hj); [now apply in_map|].
    exists (SCRAPER_INSTRUCTIONS ++ before), after.
    change (rawText (u0 :: rest)) with (join (LF ++ LF) (map sourceBlock (u0 :: rest))).
    rewrite Hj. now rewrite <- app_assoc.
  - intros u. split; [reflexivity|apply slice0_length].
Qed.

Lemma scraper_prompt_witness :
  rawText [] = NO_URLS
  /\ rawText [ {| url := js "https://acme.example"; title := js "Acme";
                  snippet := js "..."; content := long_text 2100 |} ]
     = js "Source: https://acme.example" ++ LF ++ js "Title: Acme" ++ LF
         ++ js "Summary: " ++ long_text 2000.
Proof.
  split.
  - destruct (scraper_prompt (demo_env (Normal (text_response None None)))
                initial_world [])
      as (_ & _ & _ & H & _).
    apply H. reflexivity.
  - destruct (scraper_prompt (demo_env (Normal (text_response None None)))
                initial_world
                [ {| url := js "https://acme.example"; title := js "Acme";
                     snippet := js "..."; content := long_text 2100 |} ])
      as (_ & _ & _ & _ & H & _).
    destruct H as [H _]; [discriminate|].
    rewrite H. vm_compute. reflexivity.
Defined.

(* ================================================================== *)
(** * Properties of the Analyst *)
(* ================================================================== *)

Lemma lookup_define_same {V} (k : jsstring) (v : V) (props : list (jsstring * V)) :
  lookup k (define k v props) = Some v.
Proof.
  induction props as [|[k' v'] rest IH]; simpl.
  - now rewrite jsstring_eqb_refl.
  - destruct (jsstring_eqb k k') eqn:E; simpl.
    + now rewrite jsstring_eqb_refl.
    + now rewrite E.
Qed.

Lemma Get_scores_array (elems : list JSValue) (named : list (jsstring * JSValue)) :
  Get (JArray elems named) SCORES =
  Normal (match lookup SCORES named with Some x => x | None => JUndefined end).
Proof.
  unfold Get.
  change (jsstring_eqb SCORES (js "length")) with false.
  change (array_index SCORES) with (@None N).
  cbv iota. now destruct (lookup SCORES named).
Qed.

Lemma Get_scores_object (props : list (jsstring * JSValue)) :
  Get (JObject props) SCORES =
  Normal (match lookup SCORES props with Some x => x | None => JUndefined end).
Proof. unfold Get. now destruct (lookup SCORES props). Qed.

Lemma assign_scores_Get (swot x swot' : JSValue) :
  assign_scores swot x = Normal swot' -> Get swot' SCORES = Normal x.
Proof.
  destruct swot; simpl; try discriminate; intros [= <-].
  - now rewrite Get_scores_array, lookup_define_same.
  - now rewrite Get_scores_object, lookup_define_same.
Qed.

Lemma assign_scores_object (swot x : JSValue) :
  is_object swot = true -> exists swot', assign_scores swot x = Normal swot'.
Proof. destruct swot; simpl; try discriminate; eauto. Qed.

Lemma assign_scores_primitive (swot x : JSValue) :
  is_object swot = false -> exists e, assign_scores swot x = Throw e.
Proof. destruct swot; simpl; try discriminate; eauto. Qed.

Lemma average_of_uniform (q : Q) :
  cbind (score_values (JObject [(SCORES, uniform_scores q)])) average_of
  = Normal (AverageOf (repeat (JNumber q) 5)).
Proof. reflexivity. Qed.

(** The analyst's run once the inner [try] has failed. *)
Lemma analyst_run_fallback
    (env : Env) (w : World) (content : jsstring) (resp : Response) (e : JSError) :
  generateContent env (analystRequest (config env) content) = Normal resp ->
  parseSwot resp = Throw e ->
  exists log w',
    runAnalystAgent content env w = (Normal (EMPTY_SWOT, log), w')
    /\ type log = SUCCESS
    /\ agent log = Role_ANALYST
    /\ console w' = console w
         ++ [console_warn_event
               (js "JSON parse failed, using fallback empty SWOT") e].
Proof.
  intros Hgw Hparse.
  unfold runAnalystAgent. run_stage. cbn beta iota. rewrite Hgw, Hparse.
  cbn beta iota.
  change (score_values EMPTY_SWOT) with
    (Normal (A:=list JSValue) (repeat (JNumber 0) 5)).
  cbn beta iota.
  change (average_of (repeat (JNumber 0) 5)) with
    (Normal (AverageOf (repeat (JNumber 0) 5))).
  cbn beta iota.
  eexists _, _. repeat split.
Qed.

(** The analyst's run once the inner [try] has produced a value. *)
Lemma analyst_run_parsed
    (env : Env) (w : World) (content : jsstring) (resp : Response) (swot : JSValue) :
  generateContent env (analystRequest (config env) content) = Normal resp ->
  parseSwot resp = Normal swot ->
  match cbind (score_values swot) average_of with
  | Normal _ =>
      exists log w',
        runAnalystAgent content env w = (Normal (swot, log), w')
        /\ type log = SUCCESS /\ console w' = console w
  | Throw e =>
      exists w', runAnalystAgent content env w = (Throw e, w')
  end.
Proof.
  intros Hgw Hparse.
  unfold runAnalystAgent. run_stage. cbn beta iota. rewrite Hgw, Hparse.
  cbn beta iota.
  destruct (score_values swot) as [vs|e]; cbn beta iota.
  - destruct (average_of vs) as [piece|e]; cbn beta iota.
    + eexists _, _. repeat split.
    + eexists. reflexivity.
  - eexists. reflexivity.
Qed.

(** C5.  When the response text does not parse as JSON, the Analyst
    still returns normally: the SWOT it returns has the four lists empty
    and the five scores 0, the [LogEntry] has status SUCCESS, and the
    failure appears on the console as a warning (no error is reported
    and nothing is thrown). *)
Theorem analyst_parse_failure_degrades
    (env : Env) (w : World) (content : jsstring) (resp : Response) (e : JSError) :
  generateContent env (analystRequest (config env) content) = Normal resp ->
  JSON_parse (str_or (text resp) (js "{}")) = Throw e ->
  exists swot log w',
    runAnalystAgent content env w = (Normal (swot, log), w')
    /\ Get swot (js "strengths") = Normal (JArray [] [])
    /\ Get swot (js "weaknesses") = Normal (JArray [] [])
    /\ Get swot (js "opportunities") = Normal (JArray [] [])
    /\ Get swot (js "threats") = Normal (JArray [] [])
    /\ score swot "innovation" = Normal (JNumber 0)
    /\ score swot "market_share" = Normal (JNumber 0)
    /\ score swot "pricing_power" = Normal (JNumber 0)
    /\ score swot "brand_reputation" = Normal (JNumber 0)
    /\ score swot "velocity" = Normal (JNumber 0)
    /\ type log = SUCCESS
    /\ console w' = console w
         ++ [console_warn_event
               (js "JSON parse failed, using fallback empty SWOT") e].
Proof.
  intros Hgw Hparse.
  assert (Hp : parseSwot resp = Throw e).
  { unfold parseSwot. now rewrite Hparse. }
  destruct (analyst_run_fallback env w content resp e Hgw Hp)
    as (log & w' & Hrun & Ht & _ & Hc).
  exists EMPTY_SWOT, log, w'.
  split; [exact Hrun|].
  repeat (split; [reflexivity|]). split; assumption.
Qed.

Lemma analyst_parse_failure_witness :
  exists swot log w',
    runAnalystAgent (js "Acme Corp raised prices in May.")
      (demo_env (Normal (text_response (Some (js "Here is the SWOT: ...")) None)))
      initial_world
    = (Normal (swot, log), w')
    /\ swot = EMPTY_SWOT
    /\ type log = SUCCESS
    /\ console w' = [console_warn_event
                       (js "JSON parse failed, using fallback empty SWOT")
                       (SyntaxError "Unexpected token in JSON")].
Proof.
  destruct (analyst_parse_failure_degrades
              (demo_env (Normal (text_response (Some (js "Here is the SWOT: ...")) None)))
              initial_world (js "Acme Corp raised prices in May.")
              (text_response (Some (js "Here is the SWOT: ...")) None)
              (SyntaxError "Unexpected token in JSON"))
    as (swot & log & w' & Hrun & _ & _ & _ & _ & _ & _ & _ & _ & _ & Ht & Hc).
  - reflexivity.
  - reflexivity.
  - exists swot, log, w'. split; [exact Hrun|].
    split; [|split; [exact Ht|exact Hc]].
    vm_compute in Hrun. now injection Hrun as <- _ _.
Defined.

Lemma parseSwot_cases (resp : Response) :
  parseSwot resp =
  match JSON_parse (str_or (text resp) (js "{}")) with
  | Throw e => Throw e
  | Normal v =>
      match Get v SCORES with
      | Throw e => Throw e
      | Normal s => if truthy s then Normal v else assign_scores v DEFAULT_SCORES
      end
  end.
Proof.
  unfold parseSwot, cbind.
  destruct (JSON_parse _) as [v|e]; [|reflexivity].
  destruct (Get v SCORES) as [s|e]; [|reflexivity].
  now destruct (truthy s).
Qed.

Lemma score_values_truthy (v s : JSValue) :
  Get v SCORES = Normal s -> truthy s = true ->
  score_values v = Normal (Object_values s).
Proof.
  intros HG Ht. unfold score_values. rewrite HG. simpl.
  destruct s; try reflexivity; discriminate.
Qed.

(** C1, as the code has it.  The scores of the SWOT the Analyst returns
    depend on what the model sent:
    - when the text does not parse, or parses to [null] (whose [scores]
      cannot be read), or parses to a number, string or boolean without a
      truthy [scores] (which cannot take one), they are the five fixed
      keys, each 0;
    - when the text parses to an object or array whose [scores] is absent
      or falsy, they are the five fixed keys, each 50;
    - when the parsed value has a truthy [scores], the Analyst returns
      the parsed value as it is, with that very [scores], whenever it
      returns; and it returns whenever the values of that [scores] can
      be summed for the log message.
    In the first two cases the mapping has exactly the five fixed keys
    with integers between 0 and 100. *)
Theorem analyst_scores_by_case
    (env : Env) (w : World) (content : jsstring) (resp : Response) :
  generateContent env (analystRequest (config env) content) = Normal resp ->
  fully_scored (uniform_scores 0) = true
  /\ fully_scored (uniform_scores 50) = true
  /\ match JSON_parse (str_or (text resp) (js "{}")) with
     | Throw _ => returns_scores env w content (uniform_scores 0)
     | Normal v =>
         match Get v SCORES with
         | Throw _ => returns_scores env w content (uniform_scores 0)
         | Normal s =>
             if truthy s then
               (forall swot log w',
                  runAnalystAgent content env w = (Normal (swot, log), w') ->
                  swot = v /\ Get swot SCORES = Normal s)
               /\ (forallb stringifiable (Object_values s) = true ->
                   exists log w',
                     runAnalystAgent content env w = (Normal (v, log), w'))
               /\ (forallb stringifiable (Object_values s) = false ->
                   exists e w', runAnalystAgent content env w = (Throw e, w'))
             else if is_object v then returns_scores env w content (uniform_scores 50)
             else returns_scores env w content (uniform_scores 0)
         end
     end.
Proof.
  intros Hgw. split; [reflexivity|]. split; [reflexivity|].
  pose proof (parseSwot_cases resp) as Hp.
  assert (Hfallback : forall e, parseSwot resp = Throw e ->
                                returns_scores env w content (uniform_scores 0)).
  { intros e He.
    destruct (analyst_run_fallback env w content resp e Hgw He)
      as (log & w' & Hrun & _).
    now exists EMPTY_SWOT, log, w'. }
  destruct (JSON_parse _) as [v|e]; [|now apply (Hfallback e)].
  destruct (Get v SCORES) as [s|e] eqn:HG; [|now apply (Hfallback e)].
  destruct (truthy s) eqn:Ht.
  - pose proof (analyst_run_parsed env w content resp v Hgw Hp) as Hrun.
    rewrite (score_values_truthy v s HG Ht) in Hrun.
    unfold cbind, average_of in Hrun. split; [|split].
    + intros swot log w' Hret.
      destruct (forallb stringifiable (Object_values s)).
      * destruct Hrun as (log' & w'' & Hrun & _).
        rewrite Hrun in Hret. injection Hret as <- _ _. now split.
      * destruct Hrun as (w'' & Hrun). rewrite Hrun in Hret. discriminate.
    + intros Hs. rewrite Hs in Hrun.
      destruct Hrun as (log' & w'' & Hrun & _). now exists log', w''.
    + intros Hs. rewrite Hs in Hrun.
      destruct Hrun as (w'' & Hrun). eexists _, w''. exact Hrun.
  - destruct (is_object v) eqn:Ho.
    + destruct (assign_scores_object v DEFAULT_SCORES Ho) as [swot' Ha].
      rewrite Ha in Hp.
      pose proof (assign_scores_Get _ _ _ Ha) as HG'.
      pose proof (analyst_run_parsed env w content resp swot' Hgw Hp) as Hrun.
      unfold score_values in Hrun. rewrite HG' in Hrun.
      change (cbind (cbind (Normal DEFAULT_SCORES) _) average_of)
        with (Normal (AverageOf (repeat (JNumber 50) 5))) in Hrun.
      destruct Hrun as (log & w' & Hrun & _).
      now exists swot', log, w'.
    + destruct (assign_scores_primitive v DEFAULT_SCORES Ho) as [e Ha].
      rewrite Ha in Hp. now apply (Hfallback e).
Qed.

Lemma analyst_scores_by_case_witness :
  returns_scores
    (demo_env (Normal (text_response (Some (json_text "{'strengths':['brand']}")) None)))
    initial_world (js "Acme Corp raised prices in May.") (uniform_scores 50).
Proof.
  destruct (analyst_scores_by_case
              (demo_env (Normal (text_response
                                   (Some (json_text "{'strengths':['brand']}")) None)))
              initial_world (js "Acme Corp raised prices in May.")
              (text_response (Some (json_text "{'strengths':['brand']}")) None))
    as (_ & _ & H).
  - reflexivity.
  - exact H.
Defined.

(** The inner [catch] also takes the parses that cannot hold [scores]. *)
Example analyst_on_null_and_primitives :
  map (fun t => fst (run (runAnalystAgent (js "Acme Corp raised prices in May."))
                         (demo_env (Normal (text_response (Some (js t)) None)))))
      ["null"; "5"; "true"]%string
  = map (fun t => fst (run (runAnalystAgent (js "Acme Corp raised prices in May."))
                           (demo_env (Normal (text_response (Some (js t)) None)))))
        ["not json"; "not json"; "not json"]%string.
Proof. reflexivity. Qed.

(** A [scores] whose values cannot be summed makes the stage throw. *)
Example analyst_on_unsummable_scores :
  fst (run (runAnalystAgent (js "Acme Corp raised prices in May."))
           (demo_env (Normal (text_response
                                (Some (json_text "{'scores':{'innovation':{'toString':1}}}"))
                                None))))
  = Throw (TypeError "Cannot convert object to primitive value").
Proof. reflexivity. Qed.

(** C1 as stated fails: a [scores] object with one key only is returned
    as it is; the four other scores stay absent and nothing is set to 50. *)
Lemma analyst_partial_scores_kept :
  exists swot log w',
    runAnalystAgent (js "Acme Corp raised prices in May.")
      (demo_env (Normal (text_response
                           (Some (json_text "{'scores':{'innovation':7}}")) None)))
      initial_world
    = (Normal (swot, log), w')
    /\ Get swot SCORES = Normal (JObject [(js "innovation", JNumber 7)])
    /\ score swot "market_share" = Normal JUndefined
    /\ fully_scored (JObject [(js "innovation", JNumber 7)]) = false.
Proof.
  eexists _, _, _. split; [vm_compute; reflexivity|].
  repeat split.
Qed.

(* ================================================================== *)
(** * Token usage and cost across the stages *)
(* ================================================================== *)

Lemma total_tokens_total_only (resp : Response) (total : Q) :
  total_only resp total -> (0 < total)%Q -> total_tokens resp = total.
Proof.
  intros (u & Hu & _ & _ & Ht) Hpos. unfold total_tokens. rewrite Hu, Ht. simpl.
  destruct (Qnum total =? 0)%Z eqn:E; [|reflexivity].
  apply Z.eqb_eq in E. unfold Qlt in Hpos. simpl in Hpos. rewrite E in Hpos. lia.
Qed.

Lemma cost_total_only (table : PricingTable) (model : jsstring)
    (resp : Response) (total : Q) :
  total_only resp total ->
  (calculateCost table model (usageMetadata resp) == 0)%Q.
Proof.
  intros (u & Hu & Hp & Hc & _). rewrite Hu. simpl. rewrite Hp, Hc. simpl.
  unfold Qdiv. rewrite !Qmult_0_l. reflexivity.
Qed.

(** Every [LogEntry] of status SUCCESS carries the token total and the
    cost computed from the response the gateway gave to the stage's
    request. *)
Lemma success_log_reads_response
    (call : StageCall) (env : Env) (w w' : World) (resp : Response) (log : LogEntry) :
  generateContent env (stageRequest (config env) call) = Normal resp ->
  stageLog call env w = (Normal log, w') ->
  type log = SUCCESS ->
  tokenUsage log = total_tokens resp
  /\ exists model, cost log = calculateCost (PRICING (config env)) model
                                (usageMetadata resp).
Proof.
  intros Hgw Hrun Hok. destruct call; cbn [stageRequest stageLog] in *.
  - revert Hrun. unfold runRouterAgent. run_stage. cbn beta iota.
    rewrite Hgw. cbn beta iota.
    destruct (JSON_parse _) as [v|e]; cbn beta iota; [|discriminate].
    destruct (Get v (js "target_company")) as [t|e]; cbn beta iota; [|discriminate].
    destruct (interp t) as [pt|e]; cbn beta iota; [|discriminate].
    destruct (Get v (js "analysis_type")) as [a|e]; cbn beta iota; [|discriminate].
    destruct (interp a) as [pa|e]; cbn beta iota; [|discriminate].
    intros [= <- _]. split; [reflexivity|]. eexists. reflexivity.
  - revert Hrun. unfold runHunterAgent. run_stage. cbn beta iota.
    rewrite Hgw. cbn beta iota.
    destruct (discoveredUrls company resp) as [found|e]; cbn beta iota; [|discriminate].
    intros [= <- _]. split; [reflexivity|]. eexists. reflexivity.
  - revert Hrun. unfold runScraperAgent. run_stage. cbn beta iota.
    rewrite Hgw. cbn beta iota.
    intros [= <- _]. split; [reflexivity|]. eexists. reflexivity.
  - revert Hrun. unfold runAnalystAgent. run_stage. cbn beta iota.
    rewrite Hgw. cbn beta iota.
    destruct (parseSwot resp) as [swot|e]; cbn beta iota.
    + destruct (score_values swot) as [vs|e]; cbn beta iota; [|discriminate].
      destruct (average_of vs) as [p|e]; cbn beta iota; [|discriminate].
      intros [= <- _]. split; [reflexivity|]. eexists. reflexivity.
    + destruct (score_values EMPTY_SWOT) as [vs|e']; cbn beta iota; [|discriminate].
      destruct (average_of vs) as [p|e']; cbn beta iota; [|discriminate].
      intros [= <- _]. split; [reflexivity|]. eexists. reflexivity.
  - revert Hrun. unfold runReporterAgent. run_stage. cbn beta iota.
    rewrite Hgw. cbn beta iota.
    destruct (text resp) as [[|c r]|]; cbn beta iota;
      intros [= <- _]; try discriminate.
    split; [reflexivity|]. eexists. reflexivity.
Qed.

(** C10, as the code has it.  For every stage, when the response's usage
    record has a positive [totalTokenCount] but neither a
    [promptTokenCount] nor a [candidatesTokenCount], every [LogEntry] of
    status SUCCESS the stage returns has that total as its [tokenUsage]
    (hence a positive one) and a cost equal to 0. *)
Theorem success_log_tokens_without_cost
    (call : StageCall) (env : Env) (w w' : World) (resp : Response)
    (total : Q) (log : LogEntry) :
  generateContent env (stageRequest (config env) call) = Normal resp ->
  total_only resp total ->
  (0 < total)%Q ->
  stageLog call env w = (Normal log, w') ->
  type log = SUCCESS ->
  tokenUsage log = total /\ (0 < tokenUsage log)%Q /\ (cost log == 0)%Q.
Proof.
  intros Hgw Hu Hpos Hrun Hok.
  destruct (success_log_reads_response call env w w' resp log Hgw Hrun Hok)
    as (Ht & model & Hc).
  rewrite Ht, Hc, (total_tokens_total_only resp total Hu Hpos).
  split; [reflexivity|]. split; [assumption|].
  now apply (cost_total_only _ _ resp total).
Qed.

Lemma success_log_tokens_without_cost_witness :
  exists log w',
    stageLog (CallScraper [])
      (demo_env (Normal (text_response (Some (js "Acme Corp raised prices."))
                           (demo_usage None None (Some 1200%Q)))))
      initial_world
    = (Normal log, w')
    /\ tokenUsage log = 1200%Q /\ (0 < tokenUsage log)%Q /\ (cost log == 0)%Q.
Proof.
  eexists _, _. split; [vm_compute; reflexivity|].
  eapply (success_log_tokens_without_cost (CallScraper [])
            (demo_env (Normal (text_response (Some (js "Acme Corp raised prices."))
                                 (demo_usage None None (Some 1200%Q)))))
            initial_world).
  - reflexivity.
  - eexists. repeat split.
  - reflexivity.
  - vm_compute. reflexivity.
  - reflexivity.
Defined.

(** C10 as stated fails for the Reporter: on a response without text the
    [LogEntry] it returns has [tokenUsage] 0, whatever the usage record
    says. *)
Lemma reporter_failure_log_has_no_tokens :
  total_only (text_response None (demo_usage None None (Some 1200%Q))) 1200%Q
  /\ exists log w',
       stageLog (CallReporter EMPTY_SWOT (js "No data.") (js "Acme Corp"))
         (demo_env (Normal (text_response None (demo_usage None None (Some 1200%Q)))))
         initial_world
       = (Normal log, w')
       /\ tokenUsage log = 0%Q
       /\ ~ (0 < tokenUsage log)%Q.
Proof.
  split.
  - eexists. repeat split.
  - eexists _, _. split; [vm_compute; reflexivity|].
    split; [reflexivity|]. cbn. intros H. discriminate H.
Qed.

(* ================================================================== *)
(** * Further properties: all stages *)
(* ================================================================== *)

Lemma score_values_EMPTY_SWOT :
  score_values EMPTY_SWOT = Normal (repeat (JNumber 0) 5).
Proof. reflexivity. Qed.

Lemma average_of_zeros :
  average_of (repeat (JNumber 0) 5) = Normal (AverageOf (repeat (JNumber 0) 5)).
Proof. reflexivity. Qed.

Ltac success_case resp :=
  split; [reflexivity|]; split; [reflexivity|]; left;
  split; [reflexivity|];
  split; [exists resp; repeat split; assumption|];
  split; [reflexivity|]; split; [reflexivity|];
  exists []; rewrite app_nil_r; repeat split; congruence.

Ltac throw_case :=
  split; [reflexivity|]; split; [reflexivity|];
  exists []; repeat split; congruence.

(** What a run of a stage can be: a SUCCESS entry built from the
    response, the Reporter's ERROR entry, or a rethrown error. *)
Lemma stage_run_cases (call : StageCall) (env : Env) (w w' : World)
    (r : Completion LogEntry) :
  stageLog call env w = (r, w') ->
  let req := stageRequest (config env) call in
  sent w' = sent w ++ [req]
  /\ match r with
     | Normal log =>
         agent log = role_of call
         /\ ((type log = SUCCESS
              /\ (exists resp,
                    generateContent env req = Normal resp
                    /\ tokenUsage log = total_tokens resp
                    /\ cost log = calculateCost (PRICING (config env)) (model req)
                                    (usageMetadata resp))
              /\ latencyMs log = (performance_clock env (S (ticks w))
                                  - performance_clock env (ticks w))%Q
              /\ timestamp log = wall_clock env (S (S (ticks w)))
              /\ exists added,
                   console w' = console w ++ added
                   /\ forallb is_warning added = true
                   /\ (added <> [] -> is_analyst call = true))
             \/ (type log = ERROR
                 /\ is_reporter call = true
                 /\ latencyMs log = 0%Q /\ tokenUsage log = 0%Q /\ cost log = 0%Q
                 /\ gateway_failed_or_empty env req
                 /\ exists e,
                      console w' = console w
                        ++ [console_error_event (error_label call) e]))
     | Throw e =>
         is_reporter call = false
         /\ exists added,
              console w' = console w ++ added
                ++ [console_error_event (error_label call) e]
              /\ forallb is_warning added = true
              /\ (added <> [] -> is_analyst call = true)
     end.
Proof.
  intros Hrun. cbv zeta. unfold gateway_failed_or_empty.
  destruct call; cbn [stageRequest stageLog role_of is_reporter is_analyst error_label] in *;
    revert Hrun.
  - unfold runRouterAgent. run_stage. cbn beta iota.
    destruct (generateContent env _) as [resp|e] eqn:Hgw; cbn beta iota.
    2:{ intros [= <- <-]. throw_case. }
    destruct (JSON_parse _) as [v|e]; cbn beta iota.
    2:{ intros [= <- <-]. throw_case. }
    destruct (Get v (js "target_company")) as [t|e]; cbn beta iota.
    2:{ intros [= <- <-]. throw_case. }
    destruct (interp t) as [pt|e]; cbn beta iota.
    2:{ intros [= <- <-]. throw_case. }
    destruct (Get v (js "analysis_type")) as [a|e]; cbn beta iota.
    2:{ intros [= <- <-]. throw_case. }
    destruct (interp a) as [pa|e]; cbn beta iota.
    2:{ intros [= <- <-]. throw_case. }
    intros [= <- <-]. success_case resp.
  - unfold runHunterAgent. run_stage. cbn beta iota.
    destruct (generateContent env _) as [resp|e] eqn:Hgw; cbn beta iota.
    2:{ intros [= <- <-]. throw_case. }
    destruct (discoveredUrls company resp) as [found|e]; cbn beta iota.
    2:{ intros [= <- <-]. throw_case. }
    intros [= <- <-]. success_case resp.
  - unfold runScraperAgent. run_stage. cbn beta iota.
    destruct (generateContent env _) as [resp|e] eqn:Hgw; cbn beta iota.
    2:{ intros [= <- <-]. throw_case. }
    intros [= <- <-]. success_case resp.
  - unfold runAnalystAgent. run_stage. cbn beta iota.
    destruct (generateContent env _) as [resp|e] eqn:Hgw; cbn beta iota.
    2:{ intros [= <- <-]. throw_case. }
    destruct (parseSwot resp) as [swot|e]; cbn beta iota.
    + destruct (score_values swot) as [vs|e]; cbn beta iota.
      2:{ intros [= <- <-]. throw_case. }
      destruct (average_of vs) as [piece|e]; cbn beta iota.
      2:{ intros [= <- <-]. throw_case. }
      intros [= <- <-]. success_case resp.
    + rewrite score_values_EMPTY_SWOT. cbn beta iota.
      rewrite average_of_zeros. cbn beta iota.
      intros [= <- <-].
      split; [reflexivity|]. split; [reflexivity|]. left.
      split; [reflexivity|].
      split; [exists resp; repeat split; assumption|].
      split; [reflexivity|]. split; [reflexivity|].
      eexists [_]. repeat split.
  - unfold runReporterAgent. run_stage. cbn beta iota.
    destruct (generateContent env _) as [resp|e] eqn:Hgw; cbn beta iota.
    + destruct (text resp) as [[|c t]|] eqn:Ht; cbn beta iota; intros [= <- <-].
      * split; [reflexivity|]. split; [reflexivity|]. right.
        repeat split. eexists. reflexivity.
      * success_case resp.
      * split; [reflexivity|]. split; [reflexivity|]. right.
        repeat split. eexists. reflexivity.
    + intros [= <- <-].
      split; [reflexivity|]. split; [reflexivity|]. right.
      repeat split. eexists. reflexivity.
Qed.

(** X1.  Router, Hunter, Scraper and Analyst do not recover from a
    failed gateway call: the stage reports the gateway's error on
    [console.error] under its own label, throws that same error, and
    reads the clock once only (no [LogEntry] is built). *)
Theorem transport_failure_propagates
    (call : StageCall) (env : Env) (w : World) (e : JSError) :
  is_reporter call = false ->
  generateContent env (stageRequest (config env) call) = Throw e ->
  exists w',
    stageLog call env w = (Throw e, w')
    /\ console w' = console w ++ [console_error_event (error_label call) e]
    /\ ticks w' = S (ticks w).
Proof.
  intros Hnot Hgw.
  destruct call; try discriminate; cbn [stageRequest stageLog error_label] in *.
  - unfold runRouterAgent. run_stage. cbn beta iota. rewrite Hgw.
    eexists. repeat split.
  - unfold runHunterAgent. run_stage. cbn beta iota. rewrite Hgw.
    eexists. repeat split.
  - unfold runScraperAgent. run_stage. cbn beta iota. rewrite Hgw.
    eexists. repeat split.
  - unfold runAnalystAgent. run_stage. cbn beta iota. rewrite Hgw.
    eexists. repeat split.
Qed.

Lemma transport_failure_propagates_witness :
  exists w',
    stageLog (CallHunter (js "Acme Corp") [js "pricing"])
      (demo_env (Throw (PlainError "503 Service Unavailable"))) initial_world
    = (Throw (PlainError "503 Service Unavailable"), w')
    /\ console w' = console initial_world
         ++ [console_error_event (js "Hunter Agent Error:")
               (PlainError "503 Service Unavailable")]
    /\ ticks w' = S (ticks initial_world).
Proof.
  apply (transport_failure_propagates
           (CallHunter (js "Acme Corp") [js "pricing"])
           (demo_env (Throw (PlainError "503 Service Unavailable")))
           initial_world (PlainError "503 Service Unavailable")).
  - reflexivity.
  - reflexivity.
Defined.

(** X2.  Whatever the gateway answers and however the stage ends, a
    stage calls the gateway exactly once, with the request of the stage. *)
Theorem one_request_per_stage (call : StageCall) (env : Env) (w : World) :
  sent (snd (stageLog call env w)) = sent w ++ [stageRequest (config env) call].
Proof.
  destruct (stageLog call env w) as [r w'] eqn:Hrun.
  exact (proj1 (stage_run_cases call env w w' r Hrun)).
Qed.

(** X3.  A stage never throws silently: the error it throws is the last
    thing it wrote to the console, as a [console.error] under the
    stage's label (before it there is at most the Analyst's warning).
    The Reporter never throws. *)
Theorem thrown_errors_are_reported
    (call : StageCall) (env : Env) (w w' : World) (e : JSError) :
  stageLog call env w = (Throw e, w') ->
  is_reporter call = false
  /\ exists added,
       console w' = console w ++ added
         ++ [console_error_event (error_label call) e]
       /\ forallb is_warning added = true
       /\ (added <> [] -> is_analyst call = true).
Proof.
  intros Hrun. exact (proj2 (stage_run_cases call env w w' (Throw e) Hrun)).
Qed.

Lemma thrown_errors_are_reported_witness :
  exists e w' added,
    stageLog (CallAnalyst (js "Acme Corp raised prices in May."))
      (demo_env (Normal (text_response
                           (Some (json_text "{'scores':{'innovation':{'toString':1}}}"))
                           None)))
      initial_world
    = (Throw e, w')
    /\ console w' = console initial_world ++ added
         ++ [console_error_event (js "Analyst Agent Error:") e]
    /\ forallb is_warning added = true.
Proof.
  eexists _, _.
  destruct (thrown_errors_are_reported
              (CallAnalyst (js "Acme Corp raised prices in May."))
              (demo_env (Normal (text_response
                                   (Some (json_text "{'scores':{'innovation':{'toString':1}}}"))
                                   None)))
              initial_world _ _ ltac:(vm_compute; reflexivity))
    as (_ & added & Hc & Hw & _).
  exists added. split; [vm_compute; reflexivity|]. split; assumption.
Defined.

(** X4.  A SUCCESS entry accounts for the response the stage received:
    its token usage is the response's total (0 when absent), its cost is
    [calculateCost] at the price of the very model the request named,
    its latency is the difference of two successive readings of the
    performance clock, and its timestamp is read after both. *)
Theorem success_entry_accounting
    (call : StageCall) (env : Env) (w w' : World) (log : LogEntry) :
  stageLog call env w = (Normal log, w') ->
  type log = SUCCESS ->
  let req := stageRequest (config env) call in
  exists resp,
    generateContent env req = Normal resp
    /\ tokenUsage log = total_tokens resp
    /\ cost log = calculateCost (PRICING (config env)) (model req) (usageMetadata resp)
    /\ latencyMs log = (performance_clock env (S (ticks w))
                        - performance_clock env (ticks w))%Q
    /\ timestamp log = wall_clock env (S (S (ticks w)))
    /\ agent log = role_of call.
Proof.
  intros Hrun Hok. cbv zeta.
  destruct (stage_run_cases call env w w' (Normal log) Hrun)
    as (_ & Hrole & [(_ & (resp & Hgw & Ht & Hc) & Hl & Hts & _)|(Herr & _)]).
  - exists resp. repeat split; assumption.
  - congruence.
Qed.

Lemma success_entry_accounting_witness :
  exists log w',
    stageLog (CallReporter EMPTY_SWOT (js "No data.") (js "Acme Corp"))
      (demo_env (Normal (text_response (Some (js "# Acme Corp"))
                           (demo_usage (Some 1000%Q) (Some 500%Q) (Some 1500%Q)))))
      initial_world
    = (Normal log, w')
    /\ tokenUsage log = 1500%Q
    /\ (cost log == 625 # 100000)%Q
    /\ latencyMs log = (100 - 0)%Q.
Proof.
  eexists _, _. split; [vm_compute; reflexivity|].
  destruct (success_entry_accounting
              (CallReporter EMPTY_SWOT (js "No data.") (js "Acme Corp"))
              (demo_env (Normal (text_response (Some (js "# Acme Corp"))
                                   (demo_usage (Some 1000%Q) (Some 500%Q) (Some 1500%Q)))))
              initial_world _ _ ltac:(vm_compute; reflexivity) eq_refl)
    as (resp & Hgw & Ht & Hc & Hl & _).
  injection Hgw as <-.
  split; [exact Ht|]. split; [rewrite Hc; reflexivity|exact Hl].
Defined.

Lemma calculateCost_nonneg (table : PricingTable) (model : jsstring)
    (usage : option UsageMetadata) :
  nonneg_prices table -> nonneg_usage usage ->
  (0 <= calculateCost table model usage)%Q.
Proof.
  intros Hp Hu. destruct usage as [u|]; simpl; [|apply Qle_refl].
  destruct Hu as [Hi Ho].
  destruct (pricing_for_nonneg table model Hp) as [Pi Po].
  apply num_or_0_nonneg in Hi, Ho.
  pose proof (per_thousand_nonneg _ _ Hi Pi) as A.
  pose proof (per_thousand_nonneg _ _ Ho Po) as B.
  change 0%Q with (0 + 0)%Q. now apply Qplus_le_compat.
Qed.

Lemma total_tokens_nonneg (resp : Response) :
  nonneg_response resp -> (0 <= total_tokens resp)%Q.
Proof.
  intros [_ H]. unfold total_tokens. apply num_or_0_nonneg.
  now destruct (usageMetadata resp).
Qed.

(** X5.  No [LogEntry] a stage returns carries a negative number: when
    the performance clock does not run backwards, no price of the table
    is negative and the response reports no negative count, [latencyMs],
    [tokenUsage] and [cost] are all at least 0 (on the Reporter's ERROR
    entry they are 0). *)
Theorem log_entry_never_negative
    (call : StageCall) (env : Env) (w w' : World) (log : LogEntry) :
  stageLog call env w = (Normal log, w') ->
  monotone_clock env ->
  nonneg_prices (PRICING (config env)) ->
  (forall resp,
     generateContent env (stageRequest (config env) call) = Normal resp ->
     nonneg_response resp) ->
  (0 <= latencyMs log)%Q /\ (0 <= tokenUsage log)%Q /\ (0 <= cost log)%Q.
Proof.
  intros Hrun Hclock Hprices Hresp.
  destruct (stage_run_cases call env w w' (Normal log) Hrun)
    as (_ & _ & [(_ & (resp & Hgw & Ht & Hc) & Hl & _)
                |(_ & _ & Hl & Ht & Hc & _)]).
  - pose proof (Hresp resp Hgw) as Hnn. rewrite Hl, Ht, Hc. repeat split.
    + apply (proj1 (Qle_minus_iff _ _)). apply Hclock.
    + now apply total_tokens_nonneg.
    + apply calculateCost_nonneg; [assumption|apply Hnn].
  - rewrite Hl, Ht, Hc. repeat split; apply Qle_refl.
Qed.

Lemma log_entry_never_negative_witness :
  exists log w',
    stageLog (CallScraper [])
      (demo_env (Normal (text_response (Some (js "Acme Corp raised prices."))
                           (demo_usage (Some 1000%Q) None (Some 1200%Q)))))
      initial_world
    = (Normal log, w')
    /\ (0 <= latencyMs log)%Q /\ (0 <= tokenUsage log)%Q /\ (0 <= cost log)%Q.
Proof.
  eexists _, _. split; [vm_compute; reflexivity|].
  eapply (log_entry_never_negative (CallScraper [])
            (demo_env (Normal (text_response (Some (js "Acme Corp raised prices."))
                                 (demo_usage (Some 1000%Q) None (Some 1200%Q)))))
            initial_world).
  - vm_compute. reflexivity.
  - intros k. cbn [performance_clock demo_env].
    rewrite <- Zle_Qle. lia.
  - split; [split; discriminate|]. repeat constructor; discriminate.
  - intros resp [= <-]. repeat split; simpl; discriminate.
Defined.

(** X6.  What a stage writes to the console follows from how it ends:
    with a SUCCESS entry it writes no [console.error] at all (only the
    Analyst may have written its warning), and only the Reporter ever
    returns an ERROR entry, after exactly one [console.error]. *)
Theorem console_output_by_status
    (call : StageCall) (env : Env) (w w' : World) (log : LogEntry) :
  stageLog call env w = (Normal log, w') ->
  match type log with
  | SUCCESS =>
      exists added,
        console w' = console w ++ added
        /\ forallb is_warning added = true
        /\ (added <> [] -> is_analyst call = true)
  | ERROR =>
      is_reporter call = true
      /\ exists e,
           console w' = console w
             ++ [console_error_event (js "Reporter Agent Error:") e]
  end.
Proof.
  intros Hrun.
  destruct (stage_run_cases call env w w' (Normal log) Hrun)
    as (_ & _ & [(Hok & _ & _ & _ & Hadded)|(Herr & Hrep & _ & _ & _ & _ & He)]).
  - now rewrite Hok.
  - rewrite Herr. split; [assumption|].
    destruct call; try discriminate. exact He.
Qed.

Lemma console_output_by_status_witness :
  exists log w' e,
    stageLog (CallReporter EMPTY_SWOT (js "No data.") (js "Acme Corp"))
      (demo_env (Normal (text_response None None))) initial_world
    = (Normal log, w')
    /\ console w' = console initial_world
         ++ [console_error_event (js "Reporter Agent Error:") e].
Proof.
  eexists _, _.
  pose proof (console_output_by_status
                (CallReporter EMPTY_SWOT (js "No data.") (js "Acme Corp"))
                (demo_env (Normal (text_response None None)))
                initial_world _ _ ltac:(vm_compute; reflexivity)) as H.
  cbn [type] in H. destruct H as (_ & e & He).
  exists e. split; [vm_compute; reflexivity|exact He].
Defined.

(* ================================================================== *)
(** * Further properties of the Router *)
(* ================================================================== *)

Lemma lookup_remove {V} (k k' : jsstring) (props : list (jsstring * V)) :
  lookup k (remove k' props) =
  if jsstring_eqb k' k then None else lookup k props.
Proof.
  unfold remove. induction props as [|[k0 v0] rest IH]; simpl.
  - now destruct (jsstring_eqb k' k).
  - destruct (jsstring_eqb k' k0) eqn:E0; simpl.
    + apply jsstring_eqb_eq in E0. subst k0. rewrite IH.
      destruct (jsstring_eqb k' k) eqn:E; [reflexivity|].
      destruct (jsstring_eqb k k') eqn:E'; [|reflexivity].
      apply jsstring_eqb_eq in E'. subst. now rewrite jsstring_eqb_refl in E.
    + destruct (jsstring_eqb k k0) eqn:E1.
      * apply jsstring_eqb_eq in E1. subst k0. now rewrite E0.
      * exact IH.
Qed.

Lemma interp_Normal (v : JSValue) (p : Piece) :
  interp v = Normal p <-> stringifiable v = true /\ p = Interp v.
Proof.
  unfold interp. destruct (stringifiable v); split.
  - intros [= <-]. now split.
  - now intros [_ ->].
  - discriminate.
  - intros [H _]. discriminate.
Qed.

(** X7.  When the text parses to an object whose [target_company] and
    [analysis_type] can be written into the message, the Router returns
    every property of that object unchanged, except [log]: a [log] sent
    by the model never reaches the caller, whose [log] is the stage's
    own SUCCESS entry, naming the company and the analysis type. *)
Theorem router_returns_parsed_properties
    (env : Env) (w : World) (query : jsstring) (resp : Response)
    (props : list (jsstring * JSValue)) :
  generateContent env (routerRequest (config env) query) = Normal resp ->
  JSON_parse (str_or (text resp) (js "{}")) = Normal (JObject props) ->
  (forall v, lookup (js "target_company") props = Some v -> stringifiable v = true) ->
  (forall v, lookup (js "analysis_type") props = Some v -> stringifiable v = true) ->
  exists r w',
    runRouterAgent query env w = (Normal r, w')
    /\ (forall k, k <> js "log" -> lookup k (routed r) = lookup k props)
    /\ lookup (js "log") (routed r) = None
    /\ type (router_log r) = SUCCESS
    /\ message (router_log r) =
         [Lit (js "Identified target: "); Interp (target_company r);
          Lit (js " ("); Interp (analysis_type r); Lit (js ")")]
    /\ console w' = console w.
Proof.
  intros Hgw Hparse Ht Ha.
  assert (Hget : forall k, Get (JObject props) k =
                           Normal (match lookup k props with
                                   | Some x => x | None => JUndefined end)).
  { intros k. simpl. now destruct (lookup k props). }
  assert (Hs : forall k, (forall v, lookup k props = Some v -> stringifiable v = true) ->
                         interp (match lookup k props with
                                 | Some x => x | None => JUndefined end)
                         = Normal (Interp (match lookup k props with
                                           | Some x => x | None => JUndefined end))).
  { intros k H. apply interp_Normal. split; [|reflexivity].
    destruct (lookup k props) as [v|]; [now apply H|reflexivity]. }
  unfold runRouterAgent. run_stage. cbn beta iota. rewrite Hgw, Hparse.
  cbn beta iota. rewrite !Hget. cbn beta iota.
  rewrite (Hs _ Ht). cbn beta iota. rewrite (Hs _ Ha). cbn beta iota.
  eexists _, _. split; [reflexivity|].
  cbn [routed router_log type message own_entries].
  assert (Hk : forall k, k <> js "log" ->
                         lookup k (remove (js "log") props) = lookup k props).
  { intros k Hne. rewrite lookup_remove.
    destruct (jsstring_eqb (js "log") k) eqn:E; [|reflexivity].
    apply jsstring_eqb_eq in E. congruence. }
  split; [exact Hk|].
  split; [rewrite lookup_remove; now rewrite jsstring_eqb_refl|].
  split; [reflexivity|]. split; [|reflexivity].
  unfold target_company, analysis_type, field. cbn [routed].
  rewrite !Hk by discriminate. reflexivity.
Qed.

Lemma router_returns_parsed_properties_witness :
  exists r w',
    runRouterAgent (js "Analyze Acme Corp pricing")
      (demo_env (Normal (text_response
                           (Some (json_text
                              "{'target_company':'Acme Corp','analysis_type':'pricing','search_queries':['pricing'],'log':'x'}"))
                           None)))
      initial_world
    = (Normal r, w')
    /\ target_company r = JString (js "Acme Corp")
    /\ analysis_type r = JString (js "pricing")
    /\ search_queries r = JArray [JString (js "pricing")] []
    /\ lookup (js "log") (routed r) = None.
Proof.
  destruct (router_returns_parsed_properties
              (demo_env (Normal (text_response
                                   (Some (json_text
                                      "{'target_company':'Acme Corp','analysis_type':'pricing','search_queries':['pricing'],'log':'x'}"))
                                   None)))
              initial_world (js "Analyze Acme Corp pricing") _ _
              eq_refl eq_refl)
    as (r & w' & Hrun & Hk & Hlog & _).
  - intros v [= <-]. reflexivity.
  - intros v [= <-]. reflexivity.
  - exists r, w'. split; [exact Hrun|].
    unfold target_company, analysis_type, search_queries, field.
    rewrite !Hk by discriminate. repeat split. exact Hlog.
Defined.

(** X8.  After a successful gateway call the Router returns exactly when
    the text parses to a value whose [target_company] and
    [analysis_type] can be read and written into the message; otherwise
    it throws (for instance on the JSON text [null], whose properties
    cannot be read). *)
Theorem router_returns_iff
    (env : Env) (w : World) (query : jsstring) (resp : Response) :
  generateContent env (routerRequest (config env) query) = Normal resp ->
  ((exists r w', runRouterAgent query env w = (Normal r, w'))
   <-> exists v t a,
         JSON_parse (str_or (text resp) (js "{}")) = Normal v
         /\ Get v (js "target_company") = Normal t /\ stringifiable t = true
         /\ Get v (js "analysis_type") = Normal a /\ stringifiable a = true).
Proof.
  intros Hgw.
  unfold runRouterAgent. run_stage. cbn beta iota. rewrite Hgw. cbn beta iota.
  destruct (JSON_parse _) as [v|e] eqn:Hp; cbn beta iota.
  2:{ split; [intros (r & w' & [=])|intros (v & t & a & [=] & _)]. }
  destruct (Get v (js "target_company")) as [t|e] eqn:Ht; cbn beta iota.
  2:{ split; [intros (r & w' & [=])|].
      intros (v' & t & a & [= <-] & Ht' & _). congruence. }
  unfold interp at 1. destruct (stringifiable t) eqn:St; cbn beta iota.
  2:{ split; [intros (r & w' & [=])|].
      intros (v' & t' & a & [= <-] & Ht' & St' & _). congruence. }
  destruct (Get v (js "analysis_type")) as [a|e] eqn:Ha; cbn beta iota.
  2:{ split; [intros (r & w' & [=])|].
      intros (v' & t' & a & [= <-] & _ & _ & Ha' & _). congruence. }
  unfold interp. destruct (stringifiable a) eqn:Sa; cbn beta iota.
  2:{ split; [intros (r & w' & [=])|].
      intros (v' & t' & a' & [= <-] & _ & _ & Ha' & Sa'). congruence. }
  split.
  - intros _. now exists v, t, a.
  - intros _. eexists _, _. reflexivity.
Qed.

Lemma router_returns_iff_witness :
  exists r w',
    runRouterAgent (js "Analyze Acme Corp pricing")
      (demo_env (Normal (text_response
                           (Some (json_text "['Acme Corp', 'pricing']")) None)))
      initial_world
    = (Normal r, w').
Proof.
  apply (router_returns_iff
           (demo_env (Normal (text_response
                                (Some (json_text "['Acme Corp', 'pricing']")) None)))
           initial_world (js "Analyze Acme Corp pricing") _ eq_refl).
  exists (JArray [JString (js "Acme Corp"); JString (js "pricing")] []),
         JUndefined, JUndefined.
  repeat split.
Defined.

(* ================================================================== *)
(** * Further properties of the Hunter *)
(* ================================================================== *)

Lemma discoveredUrls_grounded (company : jsstring) (resp : Response) :
  groundedUrls resp <> [] -> discoveredUrls company resp = Normal (groundedUrls resp).
Proof.
  unfold discoveredUrls. destruct (groundedUrls resp); [congruence|reflexivity].
Qed.

Lemma discoveredUrls_nothing (company : jsstring) (resp : Response) :
  groundedUrls resp = [] -> str_truthy (text resp) = false ->
  discoveredUrls company resp = Normal [].
Proof.
  unfold discoveredUrls. intros -> H.
  now destruct (text resp) as [[|c r]|].
Qed.

Lemma hunter_run (env : Env) (w : World) (company : jsstring)
    (queries : list jsstring) (resp : Response) :
  generateContent env (hunterRequest (config env) company queries) = Normal resp ->
  match discoveredUrls company resp with
  | Normal found =>
      exists log w',
        runHunterAgent company queries env w = (Normal (optimizedUrls found, log), w')
        /\ type log = SUCCESS
        /\ message log = [Lit (js "Discovered ");
                          Lit (Nat_toString (List.length (optimizedUrls found)));
                          Lit (js " high-signal URLs via Google Search")]
        /\ console w' = console w
  | Throw e => exists w', runHunterAgent company queries env w = (Throw e, w')
  end.
Proof.
  intros Hgw. unfold runHunterAgent. run_stage. cbn beta iota. rewrite Hgw.
  cbn beta iota. destruct (discoveredUrls company resp) as [found|e]; cbn beta iota.
  - eexists _, _. split; [reflexivity|]. cbn [type message].
    unfold optimizedUrls. rewrite length_map. repeat split.
  - eexists. reflexivity.
Qed.

Lemma optimizedUrls_nil (found : list ScrapedContent) :
  optimizedUrls found = [] <-> found = [].
Proof. unfold optimizedUrls. destruct found; simpl; split; intros; congruence. Qed.

Lemma groundedUrls_nil (resp : Response) :
  groundedUrls resp = [] <-> no_grounding_references resp.
Proof.
  unfold groundedUrls, no_grounding_references.
  destruct (filter _ _); simpl; split; intros; congruence.
Qed.

Lemma filtered_chunk (chunk : GroundingChunk) :
  has_uri_and_title chunk = true ->
  exists w0,
    web chunk = Some w0
    /\ uri w0 = Some (chunk_uri chunk) /\ chunk_uri chunk <> []
    /\ web_title w0 = Some (chunk_title chunk) /\ chunk_title chunk <> [].
Proof.
  unfold has_uri_and_title, chunk_uri, chunk_title.
  destruct (web chunk) as [w0|]; [|discriminate].
  intros H. apply andb_true_iff in H as [Hu Ht].
  destruct (str_or_truthy _ [] Hu) as [Hu1 Hu2].
  destruct (str_or_truthy _ [] Ht) as [Ht1 Ht2].
  exists w0. repeat split; assumption.
Qed.

(** X9.  When some grounding chunk has both a URI and a title, the
    Hunter returns one record per such chunk, in the order of the
    response and with the chunk's own URI and title; all records share
    the response text (cut to 2000) as content.  The company name plays
    no part: it is not encoded, so even a malformed one cannot make the
    stage fail.  The log message counts the records returned. *)
Theorem hunter_grounded_records
    (env : Env) (w : World) (company : jsstring) (queries : list jsstring)
    (resp : Response) :
  generateContent env (hunterRequest (config env) company queries) = Normal resp ->
  let chunks := filter has_uri_and_title (groundingChunks_of resp) in
  chunks <> [] ->
  exists log w',
    runHunterAgent company queries env w
    = (Normal (map (record_of_chunk resp) chunks, log), w')
    /\ (forall chunk, In chunk chunks ->
        exists w0, web chunk = Some w0
                   /\ uri w0 = Some (url (record_of_chunk resp chunk))
                   /\ web_title w0 = Some (title (record_of_chunk resp chunk)))
    /\ message log = [Lit (js "Discovered ");
                      Lit (Nat_toString (List.length chunks));
                      Lit (js " high-signal URLs via Google Search")]
    /\ type log = SUCCESS.
Proof.
  intros Hgw chunks Hne.
  assert (Hmap : optimizedUrls (groundedUrls resp) = map (record_of_chunk resp) chunks).
  { unfold optimizedUrls, groundedUrls. rewrite map_map. reflexivity. }
  assert (Hg : groundedUrls resp <> []).
  { intros Hnil. apply groundedUrls_nil in Hnil. exact (Hne Hnil). }
  pose proof (hunter_run env w company queries resp Hgw) as Hrun.
  rewrite (discoveredUrls_grounded company resp Hg) in Hrun.
  destruct Hrun as (log & w' & Hrun & Ht & Hm & _).
  rewrite Hmap in Hrun, Hm. rewrite length_map in Hm.
  exists log, w'. split; [exact Hrun|]. split; [|split; assumption].
  intros chunk Hin. apply filter_In in Hin as [_ Hf].
  destruct (filtered_chunk chunk Hf) as (w0 & Hw & Hu & _ & Htt & _).
  now exists w0.
Qed.

Lemma hunter_grounded_records_witness :
  exists log w',
    runHunterAgent [65; 55357] []
      (demo_env (Normal (grounded_response (Some (js "Acme Corp raised prices."))
                           [demo_chunk (Some (js "https://acme.example/a")) (Some (js "A"));
                            demo_chunk (Some (js "https://acme.example/b")) None;
                            demo_chunk (Some (js "https://acme.example/c")) (Some (js "C"))])))
      initial_world
    = (Normal ([ {| url := js "https://acme.example/a"; title := js "A";
                    snippet := js "Acme Corp raised prices....";
                    content := js "Acme Corp raised prices." |};
                 {| url := js "https://acme.example/c"; title := js "C";
                    snippet := js "Acme Corp raised prices....";
                    content := js "Acme Corp raised prices." |} ], log), w').
Proof.
  destruct (hunter_grounded_records
              (demo_env (Normal (grounded_response (Some (js "Acme Corp raised prices."))
                                   [demo_chunk (Some (js "https://acme.example/a")) (Some (js "A"));
                                    demo_chunk (Some (js "https://acme.example/b")) None;
                                    demo_chunk (Some (js "https://acme.example/c")) (Some (js "C"))])))
              initial_world [65; 55357] [] _ eq_refl)
    as (log & w' & Hrun & _).
  - discriminate.
  - exists log, w'. exact Hrun.
Defined.

(** X10.  The Hunter returns no record exactly when the response has
    neither a grounding reference with URI and title nor any text; in
    that case it still succeeds, with a SUCCESS entry. *)
Theorem hunter_empty_result
    (env : Env) (w : World) (company : jsstring) (queries : list jsstring)
    (resp : Response) :
  generateContent env (hunterRequest (config env) company queries) = Normal resp ->
  (no_grounding_references resp /\ str_truthy (text resp) = false ->
   exists log w',
     runHunterAgent company queries env w = (Normal ([], log), w')
     /\ type log = SUCCESS)
  /\ (forall urls log w',
        runHunterAgent company queries env w = (Normal (urls, log), w') ->
        (urls = [] <-> no_grounding_references resp /\ str_truthy (text resp) = false)).
Proof.
  intros Hgw. pose proof (hunter_run env w company queries resp Hgw) as Hrun.
  split.
  - intros [Hno Hempty]. apply groundedUrls_nil in Hno.
    rewrite (discoveredUrls_nothing company resp Hno Hempty) in Hrun.
    destruct Hrun as (log & w' & Hrun & Ht & _). now exists log, w'.
  - intros urls log w' Hret.
    destruct (discoveredUrls company resp) as [found|e] eqn:Hd.
    2:{ destruct Hrun as (w'' & Hrun). congruence. }
    destruct Hrun as (log' & w'' & Hrun & _).
    rewrite Hrun in Hret. injection Hret as <- _ _.
    rewrite optimizedUrls_nil, <- groundedUrls_nil.
    revert Hd. unfold discoveredUrls, encodeURIComponent.
    destruct (groundedUrls resp) as [|g gs].
    + destruct (text resp) as [[|c r]|]; simpl.
      * intros [= <-]. now split.
      * destruct (Uri.encode company); simpl; intros [= <-].
        split; [discriminate|]. intros [_ H]. discriminate.
      * intros [= <-]. now split.
    + intros [= <-]. split; [discriminate|]. intros [H _]. discriminate.
Qed.

Lemma hunter_empty_result_witness :
  exists log w',
    runHunterAgent (js "Acme Corp") []
      (demo_env (Normal (grounded_response None
                           [demo_chunk (Some (js "https://acme.example/a")) (Some [])])))
      initial_world
    = (Normal ([], log), w')
    /\ type log = SUCCESS.
Proof.
  apply (hunter_empty_result
           (demo_env (Normal (grounded_response None
                                [demo_chunk (Some (js "https://acme.example/a")) (Some [])])))
           initial_world (js "Acme Corp") [] _ eq_refl).
  split; reflexivity.
Defined.

Lemma slice0_slice0 (i j : nat) (s : jsstring) :
  (i <= j)%nat -> slice0 i (slice0 j s) = slice0 i s.
Proof.
  intros H. unfold slice0. rewrite firstn_firstn. now rewrite Nat.min_l.
Qed.

Lemma length_ellipsis (n : nat) (s : jsstring) :
  (List.length (slice0 n s ++ ELLIPSIS) <= n + 3)%nat.
Proof.
  rewrite length_app. pose proof (slice0_length n s).
  change (List.length ELLIPSIS) with 3%nat. lia.
Qed.

(** X11.  The snippet of every record the Hunter returns is the
    beginning of the response text followed by an ellipsis, and so the
    beginning of the record's own content: its first 200 code units
    when the records come from grounding references, its first 150 for
    the fallback record.  So a grounded snippet has at most 203 code
    units and the fallback snippet at most 153. *)
Theorem hunter_snippets
    (env : Env) (w w' : World) (company : jsstring) (queries : list jsstring)
    (urls : list ScrapedContent) (log : LogEntry) :
  runHunterAgent company queries env w = (Normal (urls, log), w') ->
  exists resp,
    generateContent env (hunterRequest (config env) company queries) = Normal resp
    /\ match filter has_uri_and_title (groundingChunks_of resp) with
       | _ :: _ =>
           Forall (fun u =>
                     snippet u = slice0 200 (str_or (text resp) []) ++ js "..."
                     /\ snippet u = slice0 200 (content u) ++ js "..."
                     /\ (List.length (snippet u) <= 203)%nat) urls
       | [] =>
           Forall (fun u =>
                     snippet u = slice0 150 (str_or (text resp) []) ++ js "..."
                     /\ snippet u = slice0 150 (content u) ++ js "..."
                     /\ (List.length (snippet u) <= 153)%nat) urls
       end.
Proof.
  unfold runHunterAgent. run_stage. cbn beta iota.
  destruct (generateContent env _) as [resp|e]; cbn beta iota; [|discriminate].
  destruct (discoveredUrls company resp) as [found|e] eqn:Hd;
    cbn beta iota; [|discriminate].
  intros [= <- _ _]. exists resp. split; [reflexivity|].
  destruct (filter has_uri_and_title (groundingChunks_of resp)) as [|g gs] eqn:Hf.
  - assert (Hg : groundedUrls resp = []) by (unfold groundedUrls; now rewrite Hf).
    revert Hd. unfold discoveredUrls, encodeURIComponent. rewrite Hg.
    destruct (text resp) as [[|c r]|]; cbn [cbind].
    + intros [= <-]. constructor.
    + destruct (Uri.encode company); cbn [cbind]; intros [= <-].
      constructor; [|constructor]. cbn [snippet content str_or].
      split; [reflexivity|]. split.
      * now rewrite slice0_slice0 by (repeat constructor).
      * apply Nat.le_trans with (150 + 3)%nat; [|lia].
        apply (length_ellipsis 150 (c :: r)).
    + intros [= <-]. constructor.
  - assert (Hg : groundedUrls resp <> []).
    { unfold groundedUrls. rewrite Hf. discriminate. }
    rewrite (discoveredUrls_grounded company resp Hg) in Hd.
    injection Hd as <-. unfold optimizedUrls, groundedUrls. rewrite map_map.
    apply Forall_forall. intros u Hin.
    apply in_map_iff in Hin as (chunk & <- & _). cbn [snippet content].
    split; [reflexivity|]. split.
    + now rewrite slice0_slice0 by (repeat constructor).
    + apply (length_ellipsis 200).
Qed.

Lemma hunter_snippets_witness :
  exists urls log w',
    runHunterAgent (js "Acme Corp") []
      (demo_env (Normal (grounded_response (Some (long_text 2100))
                           [demo_chunk (Some (js "https://acme.example/news"))
                                       (Some (js "Acme news"))])))
      initial_world
    = (Normal (urls, log), w')
    /\ Forall (fun u =>
                 snippet u = slice0 200 (long_text 2100) ++ js "..."
                 /\ snippet u = slice0 200 (content u) ++ js "..."
                 /\ (List.length (snippet u) <= 203)%nat) urls
    /\ List.length urls = 1%nat.
Proof.
  eexists _, _, _. split; [vm_compute; reflexivity|]. split; [|reflexivity].
  destruct (hunter_snippets
              (demo_env (Normal (grounded_response (Some (long_text 2100))
                                   [demo_chunk (Some (js "https://acme.example/news"))
                                               (Some (js "Acme news"))])))
              initial_world _ (js "Acme Corp") [] _ _
              ltac:(vm_compute; reflexivity))
    as (resp & Hgw & H).
  injection Hgw as <-. exact H.
Defined.

Lemma percent_safe (byte : N) :
  byte < 256 -> forallb uri_safe (Uri.percent byte) = true.
Proof.
  intros H.
  assert (Hall : forallb (fun n => forallb uri_safe (Uri.percent (N.of_nat n)))
                         (seq 0 256) = true) by (vm_compute; reflexivity).
  rewrite forallb_forall in Hall. specialize (Hall (N.to_nat byte)).
  rewrite N2Nat.id in Hall. apply Hall. apply in_seq. lia.
Qed.

Lemma utf8_octets (cp : N) :
  cp < 1114112 -> Forall (fun b => b < 256) (Uri.utf8 cp).
Proof.
  intros H. unfold Uri.utf8.
  pose proof (N.mod_lt cp 64 ltac:(lia)) as M0.
  pose proof (N.mod_lt (cp / 64) 64 ltac:(lia)) as M1.
  pose proof (N.mod_lt (cp / 4096) 64 ltac:(lia)) as M2.
  destruct (cp <? 128) eqn:E1; [apply N.ltb_lt in E1; repeat constructor; lia|].
  destruct (cp <? 2048) eqn:E2.
  { apply N.ltb_lt in E2.
    pose proof (N.Div0.div_lt_upper_bound cp 64 32 ltac:(lia)).
    repeat constructor; lia. }
  destruct (cp <? 65536) eqn:E3.
  { apply N.ltb_lt in E3.
    pose proof (N.Div0.div_lt_upper_bound cp 4096 16 ltac:(lia)).
    repeat constructor; lia. }
  pose proof (N.Div0.div_lt_upper_bound cp 262144 5 ltac:(lia)).
  repeat constructor; lia.
Qed.

Lemma escape_safe (cp : N) :
  cp < 1114112 -> forallb uri_safe (Uri.escape cp) = true.
Proof.
  intros H. unfold Uri.escape.
  induction (utf8_octets cp H) as [|b bs Hb _ IH]; [reflexivity|].
  cbn [flat_map]. rewrite forallb_app, IH, (percent_safe b Hb). reflexivity.
Qed.

Lemma encode_safe (n : nat) :
  forall s e,
    (List.length s <= n)%nat -> sixteen_bit s = true ->
    Uri.encode s = Some e -> forallb uri_safe e = true.
Proof.
  induction n as [|n IH]; intros s e Hlen Hbits Henc.
  - destruct s; [|simpl in Hlen; lia]. now injection Henc as <-.
  - destruct s as [|c r]; [now injection Henc as <-|].
    cbn [List.length] in Hlen.
    cbn [sixteen_bit forallb] in Hbits. apply andb_true_iff in Hbits as [Hc Hr].
    apply N.ltb_lt in Hc. cbn [Uri.encode] in Henc.
    destruct (Uri.unreserved c) eqn:Eu.
    { destruct (Uri.encode r) as [e'|] eqn:Er; [|discriminate].
      injection Henc as <-. cbn [forallb]. unfold uri_safe at 1. rewrite Eu.
      apply (IH r e'); [lia|assumption|assumption]. }
    destruct (Uri.is_low_surrogate c); [discriminate|].
    destruct (Uri.is_high_surrogate c) eqn:Eh.
    + destruct r as [|c2 r']; [discriminate|].
      destruct (Uri.is_low_surrogate c2) eqn:El; [|discriminate].
      destruct (Uri.encode r') as [e'|] eqn:Er; [|discriminate].
      injection Henc as <-. rewrite forallb_app.
      cbn [forallb] in Hr. apply andb_true_iff in Hr as [_ Hr'].
      cbn [List.length] in Hlen.
      rewrite (IH r' e') by (assumption || lia).
      rewrite escape_safe; [reflexivity|].
      unfold Uri.is_high_surrogate, Uri.is_low_surrogate in *.
      apply andb_true_iff in Eh as [_ Eh]. apply andb_true_iff in El as [_ El].
      apply N.leb_le in Eh, El. lia.
    + destruct (Uri.encode r) as [e'|] eqn:Er; [|discriminate].
      injection Henc as <-. rewrite forallb_app.
      rewrite (IH r e') by (assumption || lia).
      rewrite escape_safe; [reflexivity|lia].
Qed.

(** X12.  Whatever the company name (a string of 16-bit code units),
    the URL of the fallback record is the search URL followed by a query
    made only of unreserved characters and percent signs: no character
    of the name can end the query or start another parameter. *)
Theorem hunter_fallback_url_is_safe
    (env : Env) (w w' : World) (company : jsstring) (queries : list jsstring)
    (resp : Response) (urls : list ScrapedContent) (log : LogEntry) :
  generateContent env (hunterRequest (config env) company queries) = Normal resp ->
  no_grounding_references resp ->
  str_truthy (text resp) = true ->
  sixteen_bit company = true ->
  runHunterAgent company queries env w = (Normal (urls, log), w') ->
  exists record query,
    urls = [record]
    /\ url record = SEARCH_URL ++ query
    /\ forallb uri_safe query = true
    /\ encodeURIComponent company = Normal query.
Proof.
  intros Hgw Hno Htext Hbits Hret.
  pose proof (hunter_run env w company queries resp Hgw) as Hrun.
  apply groundedUrls_nil in Hno.
  unfold discoveredUrls in Hrun. rewrite Hno in Hrun.
  destruct (text resp) as [[|c r]|]; try discriminate.
  unfold encodeURIComponent in *.
  destruct (Uri.encode company) as [q|] eqn:Henc; cbn [cbind] in Hrun.
  - destruct Hrun as (log' & w'' & Hrun & _).
    rewrite Hrun in Hret. injection Hret as <- _ _.
    eexists _, q. split; [reflexivity|]. split; [reflexivity|].
    split; [|reflexivity].
    now apply (encode_safe (List.length company) company q).
  - destruct Hrun as (w'' & Hrun). congruence.
Qed.

Lemma hunter_fallback_url_is_safe_witness :
  exists record query,
    url record = SEARCH_URL ++ query
    /\ forallb uri_safe query = true
    /\ encodeURIComponent (js "R&D #1 / Acme?") = Normal query.
Proof.
  destruct (hunter_fallback_url_is_safe
              (demo_env (Normal (text_response (Some (js "Acme raised prices.")) None)))
              initial_world _ (js "R&D #1 / Acme?") [] _ _ _
              eq_refl eq_refl eq_refl eq_refl ltac:(vm_compute; reflexivity))
    as (record & query & _ & Hu & Hs & He).
  now exists record, query.
Defined.

Lemma occurs_in_self (s : jsstring) : occurs_in s s.
Proof. exists [], []. now rewrite app_nil_r. Qed.

Lemma occurs_in_app_r (s t before : jsstring) :
  occurs_in s t -> occurs_in s (before ++ t).
Proof. intros (b & a & ->). exists (before ++ b), a. now rewrite <- app_assoc. Qed.

Lemma occurs_in_app_l (s t after : jsstring) :
  occurs_in s t -> occurs_in s (t ++ after).
Proof. intros (b & a & ->). exists b, (a ++ after). now rewrite <- !app_assoc. Qed.

(** X13.  The Hunter's prompt names the company and every search query
    it was given; without queries the sentence about topics is left out
    altogether.  The search tool is always granted. *)
Theorem hunter_prompt_carries_queries
    (cfg : Config) (company : jsstring) (queries : list jsstring) :
  exists prompt,
    plain (contents (hunterRequest cfg company queries)) = Some prompt
    /\ occurs_in company prompt
    /\ (forall q, In q queries -> occurs_in q prompt)
    /\ (queries = [] ->
        prompt = js "Find the latest official news, pricing, and feature announcements for "
                   ++ company ++ js ".  Be thorough and prioritize recent data.")
    /\ (queries <> [] ->
        occurs_in (js "Specifically investigate these topics: ") prompt)
    /\ tools (hunterRequest cfg company queries) = [googleSearch].
Proof.
  eexists. split.
  { cbn [hunterRequest contents plain option_map]. rewrite app_nil_r. reflexivity. }
  split; [|split; [|split; [|split]]].
  - apply occurs_in_app_r, occurs_in_app_l, occurs_in_self.
  - intros q Hin. destruct queries as [|q0 rest]; [contradiction|].
    do 3 apply occurs_in_app_r. apply occurs_in_app_l. unfold queryContext.
    apply occurs_in_app_r, occurs_in_app_l. now apply join_occurs.
  - intros ->. reflexivity.
  - intros Hne. destruct queries as [|q0 rest]; [contradiction|].
    do 3 apply occurs_in_app_r. apply occurs_in_app_l. unfold queryContext.
    apply occurs_in_app_l, occurs_in_self.
  - reflexivity.
Qed.

Lemma hunter_prompt_carries_queries_witness :
  exists prompt,
    plain (contents (hunterRequest demo_config (js "Acme Corp")
                       [js "pricing"; js "roadmap"])) = Some prompt
    /\ occurs_in (js "roadmap") prompt.
Proof.
  destruct (hunter_prompt_carries_queries demo_config (js "Acme Corp")
              [js "pricing"; js "roadmap"])
    as (prompt & Hp & _ & Hq & _).
  exists prompt. split; [exact Hp|]. apply Hq. right. left. reflexivity.
Defined.

(* ================================================================== *)
(** * Further properties of the Scraper *)
(* ================================================================== *)

Lemma NO_SUMMARY_nonempty : NO_SUMMARY <> [].
Proof. discriminate. Qed.

(** X14.  After a successful gateway call the Scraper always returns,
    and never an empty text: the response text when it has one, the
    fixed placeholder otherwise.  Its entry has status SUCCESS and its
    message counts the records it was given. *)
Theorem scraper_never_returns_empty
    (env : Env) (w : World) (urls : list ScrapedContent) (resp : Response) :
  generateContent env (scraperRequest (config env) urls) = Normal resp ->
  exists extracted log w',
    runScraperAgent urls env w = (Normal (extracted, log), w')
    /\ extracted <> []
    /\ (str_truthy (text resp) = true -> text resp = Some extracted)
    /\ (str_truthy (text resp) = false -> extracted = NO_SUMMARY)
    /\ type log = SUCCESS
    /\ message log = [Lit (js "Processed and cleaned content from ");
                      Lit (Nat_toString (List.length urls));
                      Lit (js " sources")]
    /\ console w' = console w.
Proof.
  intros Hgw. unfold runScraperAgent. run_stage. cbn beta iota. rewrite Hgw.
  cbn beta iota. eexists _, _, _. split; [reflexivity|].
  cbn [type message]. split; [|split; [|split]].
  - destruct (str_truthy (text resp)) eqn:E.
    + apply (str_or_truthy _ NO_SUMMARY E).
    + rewrite (str_or_falsy _ _ E). apply NO_SUMMARY_nonempty.
  - intros E. apply (str_or_truthy _ NO_SUMMARY E).
  - intros E. apply (str_or_falsy _ _ E).
  - repeat split.
Qed.

Lemma scraper_never_returns_empty_witness :
  exists log w',
    runScraperAgent []
      (demo_env (Normal (text_response (Some []) None))) initial_world
    = (Normal (NO_SUMMARY, log), w').
Proof.
  destruct (scraper_never_returns_empty
              (demo_env (Normal (text_response (Some []) None)))
              initial_world [] _ eq_refl)
    as (extracted & log & w' & Hrun & _ & _ & He & _).
  rewrite (He eq_refl) in Hrun. now exists log, w'.
Defined.

Lemma scraper_plain_prompt (cfg : Config) (urls : list ScrapedContent) :
  plain (contents (scraperRequest cfg urls))
  = Some (SCRAPER_INSTRUCTIONS ++ rawText urls).
Proof. cbn [scraperRequest contents plain option_map]. now rewrite app_nil_r. Qed.

Lemma sourceBlock_content_occurs (u : ScrapedContent) :
  occurs_in (slice0 2000 (content u)) (sourceBlock u).
Proof.
  unfold sourceBlock. do 7 apply occurs_in_app_r. apply occurs_in_self.
Qed.

(** X15.  The Hunter and the Scraper compose without loss: the records
    the Hunter returns are already within the Scraper's cap, so the
    Scraper's own cut changes nothing and the whole content of every
    record occurs in the Scraper's prompt. *)
Theorem hunter_records_reach_scraper_whole
    (env : Env) (w w' : World) (company : jsstring) (queries : list jsstring)
    (urls : list ScrapedContent) (log : LogEntry) (cfg : Config) :
  runHunterAgent company queries env w = (Normal (urls, log), w') ->
  forall u, In u urls ->
    slice0 2000 (content u) = content u
    /\ forall prompt,
         plain (contents (scraperRequest cfg urls)) = Some prompt ->
         occurs_in (content u) prompt.
Proof.
  unfold runHunterAgent. run_stage. cbn beta iota.
  destruct (generateContent env _) as [resp|e]; cbn beta iota; [|discriminate].
  destruct (discoveredUrls company resp) as [found|e]; cbn beta iota; [|discriminate].
  intros [= <- _ _] u Hin.
  assert (Hcap : slice0 2000 (content u) = content u).
  { apply slice0_short. pose proof (optimizedUrls_capped found) as Hall.
    rewrite Forall_forall in Hall. exact (Hall u Hin). }
  split; [exact Hcap|].
  intros prompt Hp.
  rewrite (scraper_plain_prompt cfg (optimizedUrls found)) in Hp.
  injection Hp as <-.
  apply (occurs_in_app_r (content u) (rawText (optimizedUrls found))
           SCRAPER_INSTRUCTIONS).
  destruct (optimizedUrls found) as [|u0 rest] eqn:Hopt; [contradiction|].
  change (rawText (u0 :: rest)) with (join (LF ++ LF) (map sourceBlock (u0 :: rest))).
  destruct (join_occurs (LF ++ LF) (map sourceBlock (u0 :: rest)) (sourceBlock u)
              (in_map sourceBlock _ _ Hin)) as (b & a & ->).
  apply occurs_in_app_r, occurs_in_app_l.
  rewrite <- Hcap. apply sourceBlock_content_occurs.
Qed.

Lemma hunter_records_reach_scraper_whole_witness :
  exists urls log w' u,
    runHunterAgent (js "Acme Corp") []
      (demo_env (Normal (text_response (Some (long_text 2100)) None)))
      initial_world
    = (Normal (urls, log), w')
    /\ In u urls
    /\ slice0 2000 (content u) = content u.
Proof.
  eexists _, _, _, _. split; [vm_compute; reflexivity|].
  split; [left; reflexivity|].
  eapply (hunter_records_reach_scraper_whole
            (demo_env (Normal (text_response (Some (long_text 2100)) None)))
            initial_world _ (js "Acme Corp") [] _ _ demo_config).
  - vm_compute. reflexivity.
  - left. reflexivity.
Defined.

Lemma sourceBlock_size (u : ScrapedContent) :
  (List.length (sourceBlock u)
   <= List.length (url u) + List.length (title u) + 2026)%nat.
Proof.
  unfold sourceBlock. rewrite !length_app.
  pose proof (slice0_length 2000 (content u)).
  change (List.length (js "Source: ")) with 8%nat.
  change (List.length (js "Title: ")) with 7%nat.
  change (List.length (js "Summary: ")) with 9%nat.
  change (List.length LF) with 1%nat. lia.
Qed.

(** X16.  The size of the Scraper's raw text does not depend on how
    long the contents are: for a non-empty sequence it is at most the
    sum, over the records, of the lengths of URL and title plus 2028,
    less 2. *)
Theorem scraper_raw_text_bounded (urls : list ScrapedContent) :
  urls <> [] ->
  (List.length (rawText urls) + 2 <= blocks_size urls)%nat.
Proof.
  intros Hne. destruct urls as [|u rest]; [contradiction|]. clear Hne.
  change (rawText (u :: rest)) with (join (LF ++ LF) (map sourceBlock (u :: rest))).
  revert u. induction rest as [|v rest IH]; intros u.
  - cbn [map join blocks_size]. pose proof (sourceBlock_size u). lia.
  - change (join (LF ++ LF) (map sourceBlock (u :: v :: rest)))
      with (sourceBlock u ++ (LF ++ LF) ++ join (LF ++ LF) (map sourceBlock (v :: rest))).
    rewrite !length_app. change (List.length LF) with 1%nat.
    specialize (IH v). pose proof (sourceBlock_size u).
    change (blocks_size (u :: v :: rest))
      with (List.length (url u) + List.length (title u) + 2028
            + blocks_size (v :: rest))%nat.
    lia.
Qed.

Lemma scraper_raw_text_bounded_witness :
  (List.length (rawText [ {| url := js "https://acme.example"; title := js "Acme";
                             snippet := js "..."; content := long_text 3000 |} ])
   + 2 <= 20 + 4 + 2028 + 0)%nat.
Proof.
  apply (scraper_raw_text_bounded
           [ {| url := js "https://acme.example"; title := js "Acme";
                snippet := js "..."; content := long_text 3000 |} ]).
  discriminate.
Defined.

(* ================================================================== *)
(** * Further properties of the Analyst *)
(* ================================================================== *)

(** X17.  The Analyst never asks the model to analyse a near-empty
    text: whatever the content, the data of its prompt has more than 10
    code units once trimmed.  A content that has them is sent as it is
    (untrimmed); any other, the empty one included, is replaced by the
    fixed no-data sentence. *)
Theorem analyst_data_never_near_empty (cfg : Config) (content : jsstring) :
  plain (contents (analystRequest cfg content))
  = Some (js "Data: " ++ safeContent content)
  /\ (10 < List.length (trim (safeContent content)))%nat
  /\ ((10 < List.length (trim content))%nat -> safeContent content = content)
  /\ ((List.length (trim content) <= 10)%nat -> safeContent content = NO_DATA).
Proof.
  split.
  { cbn [analystRequest contents plain option_map]. now rewrite app_nil_r. }
  assert (Hno : (10 < List.length (trim NO_DATA))%nat)
    by (apply Nat.ltb_lt; vm_compute; reflexivity).
  unfold safeContent. destruct content as [|c r].
  - split; [exact Hno|]. split; [|reflexivity].
    intros H. cbn in H. lia.
  - destruct (10 <? List.length (trim (c :: r)))%nat eqn:E.
    + apply Nat.ltb_lt in E. split; [exact E|]. split; [reflexivity|]. lia.
    + apply Nat.ltb_ge in E. split; [exact Hno|]. split; [lia|reflexivity].
Qed.

Lemma analyst_data_never_near_empty_witness :
  safeContent ([32; 32; 32; 32; 32; 32] ++ js "Acme." ++ [10; 10; 10; 10]) = NO_DATA.
Proof.
  destruct (analyst_data_never_near_empty demo_config
              ([32; 32; 32; 32; 32; 32] ++ js "Acme." ++ [10; 10; 10; 10]))
    as (_ & _ & _ & H).
  apply H. vm_compute. repeat constructor.
Defined.

Lemma Get_scores_truthy_object (v s : JSValue) :
  Get v SCORES = Normal s -> truthy s = true -> is_object v = true.
Proof.
  destruct v; try reflexivity; simpl; try discriminate.
  - intros [= <-]. discriminate.
  - intros [= <-]. discriminate.
  - unfold Get.
    change (jsstring_eqb SCORES (js "length")) with false.
    change (array_index SCORES) with (@None N).
    cbv iota. intros [= <-]. discriminate.
Qed.

Lemma assign_scores_is_object (swot x swot' : JSValue) :
  assign_scores swot x = Normal swot' -> is_object swot' = true.
Proof. destruct swot; simpl; try discriminate; now intros [= <-]. Qed.

Lemma parseSwot_result (resp : Response) (swot : JSValue) :
  parseSwot resp = Normal swot ->
  is_object swot = true
  /\ exists s, Get swot SCORES = Normal s /\ truthy s = true.
Proof.
  rewrite parseSwot_cases.
  destruct (JSON_parse _) as [v|e]; [|discriminate].
  destruct (Get v SCORES) as [s|e] eqn:HG; [|discriminate].
  destruct (truthy s) eqn:Ht.
  - intros [= <-]. split; [exact (Get_scores_truthy_object v s HG Ht)|].
    now exists s.
  - intros Ha. split; [exact (assign_scores_is_object _ _ _ Ha)|].
    exists DEFAULT_SCORES. split; [exact (assign_scores_Get _ _ _ Ha)|reflexivity].
Qed.

Lemma analyst_run_outcome
    (env : Env) (w w' : World) (content : jsstring)
    (swot : JSValue) (log : LogEntry) :
  runAnalystAgent content env w = (Normal (swot, log), w') ->
  exists resp,
    generateContent env (analystRequest (config env) content) = Normal resp
    /\ ((parseSwot resp = Normal swot /\ console w' = console w)
        \/ (exists e,
              parseSwot resp = Throw e
              /\ swot = EMPTY_SWOT
              /\ console w' = console w
                   ++ [console_warn_event
                         (js "JSON parse failed, using fallback empty SWOT") e])).
Proof.
  unfold runAnalystAgent. run_stage. cbn beta iota.
  destruct (generateContent env _) as [resp|e]; cbn beta iota; [|discriminate].
  intros Hrun. exists resp. split; [reflexivity|]. revert Hrun.
  destruct (parseSwot resp) as [v|e]; cbn beta iota.
  - destruct (score_values v) as [vs|e]; cbn beta iota; [|discriminate].
    destruct (average_of vs) as [pc|e]; cbn beta iota; [|discriminate].
    intros [= <- _ <-]. left. now split.
  - rewrite score_values_EMPTY_SWOT. cbn beta iota.
    rewrite average_of_zeros. cbn beta iota.
    intros [= <- _ <-]. right. exists e. repeat split.
Qed.

(** X18.  Whenever the Analyst returns, the SWOT it returns is an
    object (or an array) and its [scores] property is present and
    truthy: a caller can read [scores] without a check for [undefined]. *)
Theorem analyst_scores_never_missing
    (env : Env) (w w' : World) (content : jsstring)
    (swot : JSValue) (log : LogEntry) :
  runAnalystAgent content env w = (Normal (swot, log), w') ->
  is_object swot = true
  /\ exists s, Get swot SCORES = Normal s /\ truthy s = true.
Proof.
  intros Hrun.
  destruct (analyst_run_outcome env w w' content swot log Hrun)
    as (resp & _ & [[Hp _]|(e & _ & -> & _)]).
  - exact (parseSwot_result resp swot Hp).
  - split; [reflexivity|]. exists (uniform_scores 0). now split.
Qed.

Lemma analyst_scores_never_missing_witness :
  exists swot log w' s,
    runAnalystAgent (js "Acme Corp raised prices in May.")
      (demo_env (Normal (text_response (Some (json_text "[1, {'scores': 0}]")) None)))
      initial_world
    = (Normal (swot, log), w')
    /\ is_object swot = true
    /\ Get swot SCORES = Normal s /\ truthy s = true.
Proof.
  eexists _, _, _.
  destruct (analyst_scores_never_missing
              (demo_env (Normal (text_response
                                   (Some (json_text "[1, {'scores': 0}]")) None)))
              initial_world _ (js "Acme Corp raised prices in May.") _ _
              ltac:(vm_compute; reflexivity))
    as (Ho & s & Hs & Ht).
  exists s. split; [vm_compute; reflexivity|]. repeat split; assumption.
Defined.

(** X19.  The Analyst's warning and its fallback go together: when it
    returns, either it wrote nothing to the console and returns what the
    inner [try] produced, or it wrote exactly one warning, carrying the
    error caught, and returns the empty SWOT. *)
Theorem analyst_warning_iff_fallback
    (env : Env) (w w' : World) (content : jsstring)
    (swot : JSValue) (log : LogEntry) :
  runAnalystAgent content env w = (Normal (swot, log), w') ->
  exists resp,
    generateContent env (analystRequest (config env) content) = Normal resp
    /\ ((parseSwot resp = Normal swot /\ console w' = console w)
        \/ (exists e,
              parseSwot resp = Throw e
              /\ swot = EMPTY_SWOT
              /\ console w' = console w
                   ++ [console_warn_event
                         (js "JSON parse failed, using fallback empty SWOT") e]))
    /\ type log = SUCCESS.
Proof.
  intros Hrun.
  destruct (analyst_run_outcome env w w' content swot log Hrun)
    as (resp & Hgw & Hcases).
  exists resp. split; [exact Hgw|]. split; [exact Hcases|].
  destruct (stage_run_cases (CallAnalyst content) env w w' (Normal log))
    as (_ & _ & [(Hok & _)|(_ & Hrep & _)]).
  - cbn [stageLog]. unfold bind, ret. now rewrite Hrun.
  - exact Hok.
  - discriminate.
Qed.

Lemma analyst_warning_iff_fallback_witness :
  exists swot log w' e,
    runAnalystAgent (js "Acme Corp raised prices in May.")
      (demo_env (Normal (text_response (Some (js "null")) None))) initial_world
    = (Normal (swot, log), w')
    /\ swot = EMPTY_SWOT
    /\ console w' = console initial_world
         ++ [console_warn_event
               (js "JSON parse failed, using fallback empty SWOT") e].
Proof.
  eexists _, _, _.
  destruct (analyst_warning_iff_fallback
              (demo_env (Normal (text_response (Some (js "null")) None)))
              initial_world _ (js "Acme Corp raised prices in May.") _ _
              ltac:(vm_compute; reflexivity))
    as (resp & Hgw & [[Hp _]|(e & _ & Hs & Hc)] & _).
  - injection Hgw as <-. vm_compute in Hp. discriminate Hp.
  - exists e. split; [vm_compute; reflexivity|]. split; [exact Hs|exact Hc].
Defined.

(* ================================================================== *)
(** * Further properties of the Reporter *)
(* ================================================================== *)

(** X20.  When the response has a text, the Reporter returns that text
    as the report, unchanged and uncut, with a SUCCESS entry naming the
    company, and writes nothing to the console. *)
Theorem reporter_returns_response_text
    (env : Env) (w : World) (swot : JSValue) (rawData company : jsstring)
    (resp : Response) :
  generateContent env (reporterRequest (config env) swot rawData company)
  = Normal resp ->
  str_truthy (text resp) = true ->
  exists report log w',
    runReporterAgent swot rawData company env w = (Normal (report, log), w')
    /\ text resp = Some report
    /\ type log = SUCCESS
    /\ message log = [Lit (js "Finalized executive report for "); Lit company]
    /\ console w' = console w.
Proof.
  intros Hgw Ht. unfold runReporterAgent. run_stage. cbn beta iota. rewrite Hgw.
  cbn beta iota. destruct (text resp) as [[|c r]|]; try discriminate.
  cbn beta iota. eexists _, _, _. repeat split.
Qed.

Lemma reporter_returns_response_text_witness :
  exists log w',
    runReporterAgent EMPTY_SWOT (js "No data.") (js "Acme Corp")
      (demo_env (Normal (text_response (Some (long_text 3000)) None)))
      initial_world
    = (Normal (long_text 3000, log), w').
Proof.
  destruct (reporter_returns_response_text
              (demo_env (Normal (text_response (Some (long_text 3000)) None)))
              initial_world EMPTY_SWOT (js "No data.") (js "Acme Corp") _
              eq_refl eq_refl)
    as (report & log & w' & Hrun & Htext & _).
  injection Htext as <-. now exists log, w'.
Defined.

(** X21.  The status of the Reporter's entry tells what happened: it is
    ERROR exactly when the gateway call failed or the response had no
    text, and SUCCESS exactly when the response had a text. *)
Theorem reporter_status
    (env : Env) (w w' : World) (swot : JSValue) (rawData company : jsstring)
    (report : jsstring) (log : LogEntry) :
  runReporterAgent swot rawData company env w = (Normal (report, log), w') ->
  let req := reporterRequest (config env) swot rawData company in
  (type log = ERROR <-> gateway_failed_or_empty env req)
  /\ (type log = SUCCESS <->
      exists resp, generateContent env req = Normal resp /\ text resp = Some report
                   /\ report <> []).
Proof.
  cbv zeta. unfold gateway_failed_or_empty, runReporterAgent. run_stage.
  cbn beta iota.
  destruct (generateContent env _) as [resp|e]; cbn beta iota.
  - destruct (text resp) as [[|c r]|] eqn:Ht; cbn beta iota; intros [= <- <- _];
      cbn [type str_truthy]; (split; split); try discriminate; try reflexivity;
      try (intros (resp' & [= <-] & Hr & Hne); congruence).
    intros _. exists resp. repeat split; [assumption|discriminate].
  - intros [= <- <- _]. cbn [type]. (split; split); try discriminate; try reflexivity.
    intros (resp' & [=] & _).
Qed.

Lemma reporter_status_witness :
  exists report log w',
    runReporterAgent EMPTY_SWOT (js "No data.") (js "Acme Corp")
      (demo_env (Normal (text_response (Some []) None))) initial_world
    = (Normal (report, log), w')
    /\ type log = ERROR.
Proof.
  eexists _, _, _. split; [vm_compute; reflexivity|].
  apply (reporter_status
           (demo_env (Normal (text_response (Some []) None)))
           initial_world _ EMPTY_SWOT (js "No data.") (js "Acme Corp") _ _
           ltac:(vm_compute; reflexivity)).
  reflexivity.
Defined.

(* ================================================================== *)
(** * Further properties of the cost estimator *)
(* ================================================================== *)

Lemma num_or_0_le (x y : option Q) :
  (count_or_zero x <= count_or_zero y)%Q -> (num_or_0 x <= num_or_0 y)%Q.
Proof. now rewrite !num_or_0_count. Qed.

Lemma per_thousand_le (m n price : Q) :
  (m <= n -> 0 <= price -> m / 1000 * price <= n / 1000 * price)%Q.
Proof.
  intros Hmn Hp. apply Qmult_le_compat_r; [|assumption].
  unfold Qdiv. apply Qmult_le_compat_r; [assumption|discriminate].
Qed.

(** X22.  More tokens never cost less: for one model whose lookup ends
    on a price (the table lists it, or its name is not that of an
    inherited member), when no price is negative, a usage record with at
    least as many prompt tokens and at least as many candidate tokens
    (absent counts read as 0) costs at least as much. *)
Theorem calculateCost_monotone
    (table : PricingTable) (model : jsstring) (u1 u2 : UsageMetadata) :
  resolves_to_price table model ->
  nonneg_prices table ->
  (count_or_zero (promptTokenCount u1) <= count_or_zero (promptTokenCount u2))%Q ->
  (count_or_zero (candidatesTokenCount u1)
   <= count_or_zero (candidatesTokenCount u2))%Q ->
  (calculateCost table model (Some u1) <= calculateCost table model (Some u2))%Q.
Proof.
  intros _ Hp Hi Ho. cbn [calculateCost].
  destruct (pricing_for_nonneg table model Hp) as [Pi Po].
  apply Qplus_le_compat; apply per_thousand_le;
    try assumption; now apply num_or_0_le.
Qed.

Lemma calculateCost_monotone_witness :
  (calculateCost (PRICING demo_config) (js "gemini-2.5-pro")
     (demo_usage None (Some 500%Q) None)
   <= calculateCost (PRICING demo_config) (js "gemini-2.5-pro")
        (demo_usage (Some 1000%Q) (Some 500%Q) None))%Q.
Proof.
  apply (calculateCost_monotone (PRICING demo_config) (js "gemini-2.5-pro")
           {| promptTokenCount := None; candidatesTokenCount := Some 500%Q;
              totalTokenCount := None |}
           {| promptTokenCount := Some 1000%Q; candidatesTokenCount := Some 500%Q;
              totalTokenCount := None |}).
  - left. discriminate.
  - split; [split; discriminate|]. repeat constructor; discriminate.
  - discriminate.
  - discriminate.
Defined.

(* ================================================================== *)
(** * Properties of the chat session *)
(* ================================================================== *)

(** X23.  The chat session is created with the Analyst's model and the
    search tool, and its system instruction embeds the context whole:
    the context occurs in it, uncut whatever its length, and two
    different contexts never give the same instruction. *)
Theorem chat_session_keeps_context (cfg : Config) (context : jsstring) :
  chat_model (createChatSession cfg context) = ANALYST (MODELS cfg)
  /\ chat_tools (createChatSession cfg context) = [googleSearch]
  /\ occurs_in context (chat_systemInstruction (createChatSession cfg context))
  /\ List.length (chat_systemInstruction (createChatSession cfg context))
     = (List.length CHAT_PREAMBLE + List.length context
        + List.length CHAT_GUIDELINES)%nat
  /\ forall context',
       chat_systemInstruction (createChatSession cfg context')
       = chat_systemInstruction (createChatSession cfg context) ->
       context' = context.
Proof.
  cbn [createChatSession chat_model chat_tools chat_systemInstruction].
  split; [reflexivity|]. split; [reflexivity|].
  split; [now exists CHAT_PREAMBLE, CHAT_GUIDELINES|].
  split; [rewrite !length_app; lia|].
  intros context' H. apply app_inv_head in H. now apply app_inv_tail in H.
Qed.

Lemma chat_session_keeps_context_witness :
  occurs_in (long_text 3000)
    (chat_systemInstruction (createChatSession demo_config (long_text 3000)))
  /\ long_text 3000 = long_text 3000.
Proof.
  destruct (chat_session_keeps_context demo_config (long_text 3000))
    as (_ & _ & Ho & _ & H).
  split; [exact Ho|]. apply H. reflexivity.
Defined.
